(** * system_monitor.py: the sampling-and-alerting loop

    A shallow embedding of [SystemMonitor] (configuration loading, the
    usage report, the threshold and cooldown checks of [check_resources],
    [send_alert]) and of the loop of [main], with the properties of the
    alerting logic proved about it.

    Conventions of the model.
    - A Python [float] that is finite is the rational number it denotes.
      Python compares floats with floats and with ints exactly, so [>] on
      these values is the order of [Q].
    - A naive [datetime] is the number of microseconds since
      [datetime.min] (0001-01-01 00:00:00); a [timedelta] is a number of
      microseconds.  Subtracting datetimes is exact in Python;
      [total_seconds] rounds the quotient by [10**6] to a double, and so
      does the model.
    - The exceptions are those deriving from [Exception], which is what
      every handler of the program catches.
    - What the program asks of the operating system, the clock, the
      console and the mail server is read from a record of outcomes
      ([World], [Startup]); what it prints, logs and sends, and its
      sleeps, are recorded as [event]s.
    - An interrupt of the operator ([KeyboardInterrupt]) ends the loop
      between two iterations. *)

From Stdlib Require Import ZArith QArith Qabs Qround Qpower Lqa Lia String Ascii.
From stdpp Require Import base option list gmap strings pretty.

Set Warnings "-register-all".
Local Open Scope Z_scope.

(** ** Python values and exceptions *)

Module Py.

(** A [float]: finite, infinite or not a number. *)
Inductive float :=
| Finite (q : Q)
| Inf (negative : bool)
| NaN.

(** The objects [yaml.safe_load] builds.  A mapping keeps its entries
    under string keys, the only ones the program looks up.  [PyObject]
    stands for the remaining constructions (dates, bytes, sets), which
    are neither subscriptable by a string nor ordered against a float. *)
Inductive value :=
| PyNone
| PyBool (b : bool)
| PyInt (z : Z)
| PyFloat (f : float)
| PyStr (s : string)
| PyList (l : list value)
| PyDict (d : gmap string value)
| PyObject (type_name : string).

(** Exception classes; [Other] is any further subclass of [Exception]
    raised by a library ([OSError], [psutil.Error], [yaml.YAMLError],
    [smtplib.SMTPException], ...). *)
Inductive exn :=
| KeyError (key : string)
| TypeError
| AttributeError
| Other (class_name : string).

Inductive result (A : Type) :=
| Ok (a : A)
| Raise (e : exn).
Arguments Ok {A} a.
Arguments Raise {A} e.

(** [x > y] on rationals, as a boolean. *)
Definition Qgtb (x y : Q) : bool := negb (Qle_bool x y).

(** [x > v] for a finite float [x] and an arbitrary object [v]:
    numbers (bool is a subclass of int) are compared by value, anything
    else raises [TypeError]. *)
Definition float_gt (x : Q) (v : value) : result bool :=
  match v with
  | PyBool b => Ok (Qgtb x (if b then 1 else 0)%Q)
  | PyInt z => Ok (Qgtb x (inject_Z z))
  | PyFloat (Finite q) => Ok (Qgtb x q)
  | PyFloat (Inf negative) => Ok negative
  | PyFloat NaN => Ok false
  | _ => Raise TypeError
  end.

(** [v[key]] for a string [key]. *)
Definition subscript (v : value) (key : string) : result value :=
  match v with
  | PyDict d =>
      match d !! key with
      | Some x => Ok x
      | None => Raise (KeyError key)
      end
  | _ => Raise TypeError
  end.

(** [v.get(key, default)]: only a dict has the method. *)
Definition get (v : value) (key : string) (dflt : value) : result value :=
  match v with
  | PyDict d => Ok (default dflt (d !! key))
  | _ => Raise AttributeError
  end.

(** [d[key]] on a dict of the program's own. *)
Definition dict_item {V} (d : gmap string V) (key : string) : result V :=
  match d !! key with
  | Some x => Ok x
  | None => Raise (KeyError key)
  end.

(** The integer nearest to [y], ties going to the even one. *)
Definition Qround_half_even (y : Q) : Z :=
  let q := Qfloor y in
  match (y - inject_Z q ?= 1 # 2)%Q with
  | Lt => q
  | Gt => q + 1
  | Eq => if Z.even q then q else q + 1
  end.

(** [floor (log2 x)] for [x > 0]. *)
Definition Qfloor_log2 (x : Q) : Z :=
  let e := Z.log2 (Qnum x) - Z.log2 (Zpos (Qden x)) in
  if Qle_bool (2 ^ e) x then e else e - 1.

(** The double nearest to a rational (round to nearest, ties to even),
    as the rational it denotes.  The quotients rounded by the program
    are far from the subnormal and the overflow range. *)
Definition nearest_double (x : Q) : Q :=
  let near (p : Q) : Q :=
    let ulp := (2 ^ (Qfloor_log2 p - 52))%Q in
    Qred (inject_Z (Qround_half_even (p / ulp)) * ulp) in
  match Qnum x with
  | Z0 => 0%Q
  | Zpos _ => near x
  | Zneg _ => (- near (- x))%Q
  end.

(** [format(x, '.1f')]: one decimal, correctly rounded. *)
Definition format_1f (x : Q) : string :=
  let tenths := Qround_half_even (Qabs x * 10) in
  (if Qnum x <? 0 then "-" else "")
    +:+ pretty (tenths / 10) +:+ "." +:+ pretty (tenths mod 10).

(** [s.rjust(width)]. *)
Definition rjust (width : nat) (s : string) : string :=
  String.concat "" (replicate (width - String.length s)%nat " ") +:+ s.

(** [format(x, '>5.1f')]. *)
Definition format_5_1f (x : Q) : string := rjust 5 (format_1f x).

End Py.
Export Py.

(** ** Time *)

Module Datetime.

(** Microseconds since [datetime.min]. *)
Definition datetime := Z.
(** Microseconds. *)
Definition timedelta := Z.

Definition min : datetime := 0.

(** [a - b] on datetimes. *)
Definition sub (a b : datetime) : timedelta := a - b.

(** [td.total_seconds()]: the quotient of the microseconds by [10**6],
    an int-by-int true division, which yields the nearest double. *)
Definition total_seconds (td : timedelta) : Q := nearest_double (td # 1000000).

(** The epoch of the system clock, 1970-01-01 00:00:00, which is
    719162 days after [datetime.min]. *)
Definition unix_epoch : datetime := 719162 * 86400 * 1000000.

(** [datetime.max], 9999-12-31 23:59:59.999999. *)
Definition max : datetime := 315537897599999999.

(** The seconds from [datetime.min] to the epoch. *)
Definition seconds_to_epoch : Q := 62135596800.

End Datetime.

(** ** Events and collaborators *)

Inductive level := INFO | WARNING | ERROR.

(** The message [send_alert] builds: [MIMEText(message)] with its three
    headers. *)
Record MIMEText := {
  payload : string;
  Subject : string;
  From : value;
  To : value;
}.

(** What a run leaves behind, in order. *)
Inductive event :=
| Log (lvl : level) (text : string) (exc : option exn)
    (* logging.info / logging.error of [text], followed by [exc] when the
       message interpolates the exception caught *)
| ConsolePrint (text : string)              (* self.console.print(text) *)
| SendAlert (subject message : string)      (* a call of send_alert *)
| SmtpConnect (server port : value)         (* smtplib.SMTP(server, port) *)
| SmtpStartTLS                              (* server.starttls() *)
| SmtpLogin (user password : value)         (* server.login(user, password) *)
| SmtpSend (msg : MIMEText)                 (* server.send_message(msg) *)
| SmtpQuit                                  (* leaving the with block *)
| Sleep (seconds : value).                  (* time.sleep(seconds) *)

(** Library functions whose text is the platform's. *)
Record Library := {
  strftime : Datetime.datetime -> string;   (* '%Y-%m-%d %H:%M:%S' *)
  repr_float : Q -> string;                 (* repr of a finite float *)
  repr_object : value -> string;            (* repr of a container or other object *)
}.

(** What the mail server does while one message is delivered. *)
Record Smtp := {
  (* smtplib.SMTP(server, port) *)
  connect : value -> value -> result unit;
  (* server.starttls() *)
  starttls : result unit;
  (* server.login(user, password) *)
  login : value -> value -> result unit;
  (* server.send_message(msg) *)
  send_message : result unit;
  (* SMTP.__exit__: the QUIT command and the closing of the connection *)
  quit : result unit;
}.

(** What one tick meets outside the program. *)
Record World := {
  (* psutil.cpu_percent(interval=1), psutil.virtual_memory().percent and
     psutil.disk_usage('/').percent, or the exception the first failing
     one raises *)
  psutil_read : result (Q * Q * Q);
  (* datetime.now() in get_resource_usage *)
  clock_sample : Datetime.datetime;
  (* the outcome of printing to the console or to the output file *)
  console_out : string -> result unit;
  (* datetime.now() in check_resources *)
  clock_check : Datetime.datetime;
  (* the mail server, for each message *)
  smtp : MIMEText -> Smtp;
  (* the outcome of time.sleep *)
  sleep : value -> result unit;
}.

(** What the start of the process meets. *)
Record Startup := {
  (* open(path, 'r') followed by yaml.safe_load: the document, or the
     exception either raises *)
  load_yaml : string -> result value;
  (* RotatingFileHandler('system_monitor.log', ...) *)
  open_log_file : result unit;
  (* open(path, 'a') for the --output file *)
  open_output : string -> result unit;
}.

(** ** State, output and exceptions *)

Section Monad.
Context {S : Type}.

(** A computation on a state [S]: its result or the exception raised,
    the state left (assignments made before an exception stay), and the
    events emitted. *)
Definition M (A : Type) : Type := S -> result A * S * list event.

Definition ret {A} (a : A) : M A := fun s => (Ok a, s, []).

Definition raise {A} (e : exn) : M A := fun s => (Raise e, s, []).

Definition bind {A B} (c : M A) (k : A -> M B) : M B :=
  fun s =>
    match c s with
    | (Ok a, s1, t1) => let '(r, s2, t2) := k a s1 in (r, s2, t1 ++ t2)
    | (Raise e, s1, t1) => (Raise e, s1, t1)
    end.

Definition lift {A} (r : result A) : M A := fun s => (r, s, []).

Definition emit (ev : event) : M unit := fun s => (Ok tt, s, [ev]).

Definition gets {A} (f : S -> A) : M A := fun s => (Ok (f s), s, []).

Definition modify (f : S -> S) : M unit := fun s => (Ok tt, f s, []).

(** [with ... : body], whose exit runs [leave] however the body ends; an
    exception of [leave] replaces that of the body. *)
Definition with_exit {A} (leave : M unit) (body : M A) : M A :=
  fun s =>
    let '(r, s1, t1) := body s in
    match leave s1 with
    | (Ok _, s2, t2) => (r, s2, t1 ++ t2)
    | (Raise e, s2, t2) => (Raise e, s2, t1 ++ t2)
    end.

(** [try: body except Exception as e: handler e]. *)
Definition try_except {A} (body : M A) (handler : exn -> M A) : M A :=
  fun s =>
    match body s with
    | (Ok a, s1, t1) => (Ok a, s1, t1)
    | (Raise e, s1, t1) => let '(r, s2, t2) := handler e s1 in (r, s2, t1 ++ t2)
    end.

End Monad.
Arguments M : clear implicits.

Declare Scope monitor_scope.
Delimit Scope monitor_scope with mon.
Notation "'let*' x ':=' c 'in' k" := (bind c (fun x => k))
  (at level 10, x pattern, c at level 100, k at level 200) : monitor_scope.
Notation "c ';;;' k" := (bind c (fun _ => k))
  (at level 100, k at level 200, right associativity) : monitor_scope.
Local Open Scope monitor_scope.

Definition result_of {S A} (o : result A * S * list event) : result A := o.1.1.
Definition state_of {S A} (o : result A * S * list event) : S := o.1.2.
Definition events_of {S A} (o : result A * S * list event) : list event := o.2.

(** ** The monitor *)

(** [ResourceUsage]. *)
Record ResourceUsage := {
  cpu_percent : Q;
  memory_percent : Q;
  disk_percent : Q;
  timestamp : Datetime.datetime;
}.

(** The attributes of a [SystemMonitor] that the alerting logic reads and
    writes (the console and the logging handlers hold no data of it). *)
Record SystemMonitor := {
  config : value;
  thresholds : value;
  email_config : value;
  interval : value;
  alert_cooldown : value;
  last_alert_time : gmap string Datetime.datetime;
}.

Definition set_interval (v : value) (self : SystemMonitor) : SystemMonitor :=
  {| config := config self; thresholds := thresholds self;
     email_config := email_config self; interval := v;
     alert_cooldown := alert_cooldown self;
     last_alert_time := last_alert_time self |}.

(** [self.last_alert_time[key] = t]. *)
Definition set_last_alert_time (key : string) (t : Datetime.datetime)
    (self : SystemMonitor) : SystemMonitor :=
  {| config := config self; thresholds := thresholds self;
     email_config := email_config self; interval := interval self;
     alert_cooldown := alert_cooldown self;
     last_alert_time := <[key := t]> (last_alert_time self) |}.

Definition newline : string := String "010" "".

(** ['=' * 60]. *)
Definition rule : string := String.concat "" (replicate 60 "=").

Definition ALERT : string := "[red]ALERT[/red]".
Definition OK : string := "[green]OK[/green]".

(** The default configuration of [_load_config]. *)
Definition default_config : value :=
  PyDict (<["thresholds" :=
             PyDict (<["cpu" := PyInt 80]> (<["memory" := PyInt 80]>
                     (<["disk" := PyInt 80]> ∅)))]>
         (<["email" :=
             PyDict (<["smtp_server" := PyStr "smtp.gmail.com"]>
                    (<["smtp_port" := PyInt 587]>
                    (<["sender" := PyStr "your-email@gmail.com"]>
                    (<["password" := PyStr "your-app-password"]>
                    (<["recipient" := PyStr "admin@example.com"]> ∅)))))]> ∅)).

Section Monitor.
Context (lib : Library).

(** [str(v)], as an f-string field without a format spec renders it. *)
Definition str (v : value) : string :=
  match v with
  | PyNone => "None"
  | PyBool true => "True"
  | PyBool false => "False"
  | PyInt z => pretty z
  | PyFloat (Finite q) => repr_float lib q
  | PyFloat (Inf false) => "inf"
  | PyFloat (Inf true) => "-inf"
  | PyFloat NaN => "nan"
  | PyStr s => s
  | _ => repr_object lib v
  end.

(** [logging.error(f"{text}{e}")]. *)
Definition log_error {S} (text : string) (e : exn) : M S unit :=
  emit (Log ERROR text (Some e)).

(** [logging.info(text)]. *)
Definition log_info {S} (text : string) : M S unit :=
  emit (Log INFO text None).

(** [self.thresholds[key]]. *)
Definition self_thresholds (key : string) : M SystemMonitor value :=
  let* th := gets thresholds in lift (subscript th key).

(** [self.email_config[key]]. *)
Definition self_email_config (key : string) : M SystemMonitor value :=
  let* ec := gets email_config in lift (subscript ec key).

(** [self.last_alert_time[key]]. *)
Definition self_last_alert_time (key : string) : M SystemMonitor Datetime.datetime :=
  let* d := gets last_alert_time in lift (dict_item d key).

(** [_load_config]. *)
Definition _load_config {S} (su : Startup) (config_path : string) : M S value :=
  try_except
    (lift (load_yaml su config_path))
    (fun e =>
       log_error "Failed to load config: " e ;;;
       ret default_config).

(** [_setup_logging]: the handlers it installs carry no data of the
    model; opening the log file can fail. *)
Definition _setup_logging {S} (su : Startup) (log_to_file : bool) : M S unit :=
  if log_to_file then lift (open_log_file su) else ret tt.

(** [SystemMonitor.__init__]: the object it builds. *)
Definition __init__ (su : Startup) (config_path : string) (log_to_file : bool)
    : M unit SystemMonitor :=
  let* cfg := _load_config su config_path in
  let* th := lift (subscript cfg "thresholds") in
  let* ec := lift (subscript cfg "email") in
  let* iv := lift (get cfg "interval" (PyInt 300)) in
  let* cd := lift (get cfg "alert_cooldown" (PyInt 3600)) in
  let last := <["cpu" := Datetime.min]> (<["memory" := Datetime.min]>
              (<["disk" := Datetime.min]> ∅)) in
  _setup_logging su log_to_file ;;;
  ret {| config := cfg; thresholds := th; email_config := ec; interval := iv;
         alert_cooldown := cd; last_alert_time := last |}.

(** [format_usage_report]: the fields of the f-string are evaluated from
    left to right, each threshold being looked up once to be shown and
    once to be compared. *)
Definition format_usage_report (usage : ResourceUsage) : M SystemMonitor string :=
  let stamp := strftime lib (timestamp usage) in
  let cpu := format_5_1f (cpu_percent usage) in
  let* cpu_shown := self_thresholds "cpu" in
  let* cpu_limit := self_thresholds "cpu" in
  let* cpu_over := lift (float_gt (cpu_percent usage) cpu_limit) in
  let mem := format_5_1f (memory_percent usage) in
  let* mem_shown := self_thresholds "memory" in
  let* mem_limit := self_thresholds "memory" in
  let* mem_over := lift (float_gt (memory_percent usage) mem_limit) in
  let disk := format_5_1f (disk_percent usage) in
  let* disk_shown := self_thresholds "disk" in
  let* disk_limit := self_thresholds "disk" in
  let* disk_over := lift (float_gt (disk_percent usage) disk_limit) in
  ret (newline
    +:+ "System Resource Usage Report - " +:+ stamp +:+ newline
    +:+ rule +:+ newline
    +:+ "CPU Usage    : " +:+ cpu +:+ "% (Threshold: " +:+ str cpu_shown +:+ "%) - "
    +:+ (if cpu_over then ALERT else OK) +:+ newline
    +:+ "Memory Usage : " +:+ mem +:+ "% (Threshold: " +:+ str mem_shown +:+ "%) - "
    +:+ (if mem_over then ALERT else OK) +:+ newline
    +:+ "Disk Usage   : " +:+ disk +:+ "% (Threshold: " +:+ str disk_shown +:+ "%) - "
    +:+ (if disk_over then ALERT else OK) +:+ newline
    +:+ rule).

(** [get_resource_usage]. *)
Definition get_resource_usage (w : World) : M SystemMonitor ResourceUsage :=
  try_except
    (let* (c, m, d) := lift (psutil_read w) in
     ret {| cpu_percent := c; memory_percent := m; disk_percent := d;
            timestamp := clock_sample w |})
    (fun e =>
       log_error "Failed to get resource usage: " e ;;;
       raise e).

(** [send_alert]. *)
Definition send_alert (w : World) (subject message : string) : M SystemMonitor unit :=
  emit (SendAlert subject message) ;;;
  try_except
    (let* sender := self_email_config "sender" in
     let* recipient := self_email_config "recipient" in
     let msg := {| payload := message; Subject := subject;
                   From := sender; To := recipient |} in
     let* server := self_email_config "smtp_server" in
     let* port := self_email_config "smtp_port" in
     emit (SmtpConnect server port) ;;;
     lift (connect (smtp w msg) server port) ;;;
     with_exit (emit SmtpQuit ;;; lift (quit (smtp w msg)))
       (emit SmtpStartTLS ;;;
        lift (starttls (smtp w msg)) ;;;
        let* user := self_email_config "sender" in
        let* password := self_email_config "password" in
        emit (SmtpLogin user password) ;;;
        lift (login (smtp w msg) user password) ;;;
        emit (SmtpSend msg) ;;;
        lift (send_message (smtp w msg))) ;;;
     log_info ("Alert sent: " +:+ subject))
    (fun e => log_error "Failed to send alert: " e).

(** [check_resources]. *)
Definition check_resources (w : World) : M SystemMonitor unit :=
  try_except
    (let* usage := get_resource_usage w in
     let* report := format_usage_report usage in
     emit (ConsolePrint report) ;;;
     lift (console_out w report) ;;;
     let current_time := clock_check w in
     let* cpu_limit := self_thresholds "cpu" in
     let* cpu_over := lift (float_gt (cpu_percent usage) cpu_limit) in
     (if cpu_over then
        let* last := self_last_alert_time "cpu" in
        let* window := gets alert_cooldown in
        let* due := lift (float_gt
                      (Datetime.total_seconds (Datetime.sub current_time last)) window) in
        if due then
          send_alert w "High CPU Usage Alert"
            ("CPU usage is " +:+ format_1f (cpu_percent usage) +:+ "%") ;;;
          modify (set_last_alert_time "cpu" current_time)
        else ret tt
      else ret tt) ;;;
     let* mem_limit := self_thresholds "memory" in
     let* mem_over := lift (float_gt (memory_percent usage) mem_limit) in
     (if mem_over then
        let* last := self_last_alert_time "memory" in
        let* window := gets alert_cooldown in
        let* due := lift (float_gt
                      (Datetime.total_seconds (Datetime.sub current_time last)) window) in
        if due then
          send_alert w "High Memory Usage Alert"
            ("Memory usage is " +:+ format_1f (memory_percent usage) +:+ "%") ;;;
          modify (set_last_alert_time "memory" current_time)
        else ret tt
      else ret tt) ;;;
     let* disk_limit := self_thresholds "disk" in
     let* disk_over := lift (float_gt (disk_percent usage) disk_limit) in
     (if disk_over then
        let* last := self_last_alert_time "disk" in
        let* window := gets alert_cooldown in
        let* due := lift (float_gt
                      (Datetime.total_seconds (Datetime.sub current_time last)) window) in
        if due then
          send_alert w "High Disk Usage Alert"
            ("Disk usage is " +:+ format_1f (disk_percent usage) +:+ "%") ;;;
          modify (set_last_alert_time "disk" current_time)
        else ret tt
      else ret tt))
    (fun e => log_error "Error in check_resources: " e).

End Monitor.

(** ** The loop of [main] *)

(** The parsed command line. *)
Record Args := {
  args_config : string;
  args_interval : option Z;
  args_log_file : bool;
  args_output : option string;
}.

(** A computation on an object of its own, inside one that has none. *)
Definition on_object {S A} (obj : S) (c : M S A) : M unit A :=
  fun _ => let '(r, _, t) := c obj in (r, tt, t).

Section Main.
Context (lib : Library).

(** [while True: monitor.check_resources(); time.sleep(monitor.interval)],
    one [World] per iteration; the operator interrupts the loop when the
    list is exhausted. *)
Fixpoint monitor_loop (ticks : list World) : M SystemMonitor unit :=
  match ticks with
  | [] => ret tt
  | w :: rest =>
      check_resources lib w ;;;
      let* seconds := gets interval in
      emit (Sleep seconds) ;;;
      lift (sleep w seconds) ;;;
      monitor_loop rest
  end.

(** [main]: the events of a whole run. *)
Definition main (su : Startup) (args : Args) (ticks : list World) : list event :=
  events_of
    (try_except
       (let* monitor := __init__ su (args_config args) (args_log_file args) in
        let monitor :=
          match args_interval args with
          | Some z => if z =? 0 then monitor else set_interval (PyInt z) monitor
          | None => monitor
          end in
        log_info ("Starting system monitoring (interval: "
                    +:+ str lib (interval monitor) +:+ "s)") ;;;
        match args_output args with
        | Some (String c path) => lift (open_output su (String c path))
        | _ => ret tt
        end ;;;
        on_object monitor (monitor_loop ticks) ;;;
        log_info "Monitoring stopped by user")
       (fun e => log_error "Monitoring stopped due to error: " e)
       tt).

End Main.

(** ** Metrics *)

Inductive metric := Cpu | Memory | Disk.

(** The key of a metric in [thresholds] and in [last_alert_time]. *)
Definition key (m : metric) : string :=
  match m with Cpu => "cpu" | Memory => "memory" | Disk => "disk" end.

(** The field of a sample that holds a metric. *)
Definition percent (m : metric) (u : ResourceUsage) : Q :=
  match m with
  | Cpu => cpu_percent u
  | Memory => memory_percent u
  | Disk => disk_percent u
  end.

(** The subject of the alert of a metric. *)
Definition subject (m : metric) : string :=
  match m with
  | Cpu => "High CPU Usage Alert"
  | Memory => "High Memory Usage Alert"
  | Disk => "High Disk Usage Alert"
  end.

(** An alert for the metric was attempted: [send_alert] was called with
    its subject. *)
Definition alert_attempted (m : metric) (t : list event) : Prop :=
  exists message, SendAlert (subject m) message ∈ t.

(** The text of the alert of a metric. *)
Definition message (m : metric) (u : ResourceUsage) : string :=
  match m with
  | Cpu => "CPU usage is " +:+ format_1f (cpu_percent u) +:+ "%"
  | Memory => "Memory usage is " +:+ format_1f (memory_percent u) +:+ "%"
  | Disk => "Disk usage is " +:+ format_1f (disk_percent u) +:+ "%"
  end.

(** The threshold-and-cooldown block that [check_resources] repeats for
    each metric. *)
Definition alert_block (w : World) (usage : ResourceUsage)
    (current_time : Datetime.datetime) (m : metric) : M SystemMonitor unit :=
  let* limit := self_thresholds (key m) in
  let* over := lift (float_gt (percent m usage) limit) in
  if over then
    let* last := self_last_alert_time (key m) in
    let* window := gets alert_cooldown in
    let* due := lift (float_gt
                  (Datetime.total_seconds (Datetime.sub current_time last)) window) in
    if due then
      send_alert w (subject m) (message m usage) ;;;
      modify (set_last_alert_time (key m) current_time)
    else ret tt
  else ret tt.

(** The calls of [send_alert] among the events. *)
Fixpoint alerts_of (t : list event) : list (string * string) :=
  match t with
  | [] => []
  | SendAlert s msg :: t' => (s, msg) :: alerts_of t'
  | _ :: t' => alerts_of t'
  end.

(** The reports printed among the events. *)
Fixpoint reports_of (t : list event) : list string :=
  match t with
  | [] => []
  | ConsolePrint text :: t' => text :: reports_of t'
  | _ :: t' => reports_of t'
  end.

(** The finite number a configuration value denotes, if it is one. *)
Definition number (v : value) : option Q :=
  match v with
  | PyBool b => Some (if b then 1 else 0)%Q
  | PyInt z => Some (inject_Z z)
  | PyFloat (Finite q) => Some q
  | _ => None
  end.

(** The configured threshold of a metric, when it is a number. *)
Definition limit (self : SystemMonitor) (m : metric) : option Q :=
  match thresholds self with
  | PyDict d => d !! key m ≫= number
  | _ => None
  end.

(** The cooldown window in seconds, when it is a number. *)
Definition window (self : SystemMonitor) : option Q := number (alert_cooldown self).

(** A monitor whose thresholds and cooldown window are numbers and whose
    tracker holds a time for each metric. *)
Definition well_configured (self : SystemMonitor) : bool :=
  forallb (fun m => bool_decide (is_Some (limit self m))
                    && bool_decide (is_Some (last_alert_time self !! key m)))
          [Cpu; Memory; Disk]
  && bool_decide (is_Some (window self)).

(** Whether the block of a metric calls [send_alert]: the metric is over
    its threshold and the cooldown comparison holds. *)
Definition fires (self : SystemMonitor) (u : ResourceUsage)
    (now : Datetime.datetime) (m : metric) : bool :=
  match subscript (thresholds self) (key m) with
  | Ok lim =>
      match float_gt (percent m u) lim, last_alert_time self !! key m with
      | Ok true, Some last =>
          match float_gt (Datetime.total_seconds (Datetime.sub now last))
                  (alert_cooldown self) with
          | Ok true => true
          | _ => false
          end
      | _, _ => false
      end
  | Raise _ => false
  end.

(** The condition of the [if] that opens the block of a metric. *)
Definition breach (self : SystemMonitor) (u : ResourceUsage) (m : metric) : bool :=
  match subscript (thresholds self) (key m) with
  | Ok lim =>
      match float_gt (percent m u) lim with
      | Ok b => b
      | Raise _ => false
      end
  | Raise _ => false
  end.

(** The condition of the inner [if]: the cooldown comparison. *)
Definition due (self : SystemMonitor) (now : Datetime.datetime) (m : metric) : bool :=
  match last_alert_time self !! key m with
  | Some last =>
      match float_gt (Datetime.total_seconds (Datetime.sub now last))
              (alert_cooldown self) with
      | Ok b => b
      | Raise _ => false
      end
  | None => false
  end.

(** The sample of a tick, when the queries succeed. *)
Definition sample (w : World) : option ResourceUsage :=
  match psutil_read w with
  | Ok (c, m, d) =>
      Some {| cpu_percent := c; memory_percent := m; disk_percent := d;
              timestamp := clock_sample w |}
  | Raise _ => None
  end.

(** The monitor after the blocks that called [send_alert] (those [b]
    holds for) have recorded the time [now]. *)
Definition record_if (b : bool) (k : string) (now : Datetime.datetime)
    (self : SystemMonitor) : SystemMonitor :=
  if b then set_last_alert_time k now self else self.

Definition recorded (b : metric -> bool) (now : Datetime.datetime)
    (self : SystemMonitor) : SystemMonitor :=
  record_if (b Disk) (key Disk) now
    (record_if (b Memory) (key Memory) now
       (record_if (b Cpu) (key Cpu) now self)).

(** The calls of [send_alert] of those blocks, in the order of the code. *)
Definition planned (b : metric -> bool) (u : ResourceUsage) : list (string * string) :=
  flat_map (fun m => if b m then [(subject m, message m u)] else [])
           [Cpu; Memory; Disk].

(** The report of a sample was rendered and printed. *)
Definition report_printed (lib : Library) (w : World) (u : ResourceUsage)
    (self : SystemMonitor) : bool :=
  match result_of (format_usage_report lib u self) with
  | Ok text => match console_out w text with Ok _ => true | Raise _ => false end
  | Raise _ => false
  end.

(** ** The layout of the report *)

(** The start of the line of a metric. *)
Definition label (m : metric) : string :=
  match m with
  | Cpu => "CPU Usage    : "
  | Memory => "Memory Usage : "
  | Disk => "Disk Usage   : "
  end.

(** The line of a metric, with the threshold [shown] and the status. *)
Definition metric_line (lib : Library) (u : ResourceUsage) (m : metric)
    (shown : value) (over : bool) : string :=
  label m +:+ format_5_1f (percent m u) +:+ "% (Threshold: " +:+ str lib shown
    +:+ "%) - " +:+ (if over then ALERT else OK).

(** The report as its lines: an empty one, the header, a rule, the three
    metrics and a rule. *)
Definition report_lines (lib : Library) (u : ResourceUsage)
    (shown : metric -> value) (over : metric -> bool) : list string :=
  [ "";
    "System Resource Usage Report - " +:+ strftime lib (timestamp u);
    rule;
    metric_line lib u Cpu (shown Cpu) (over Cpu);
    metric_line lib u Memory (shown Memory) (over Memory);
    metric_line lib u Disk (shown Disk) (over Disk);
    rule ].

(** [s.endswith(suffix)]. *)
Fixpoint ends_with (suffix s : string) : bool :=
  String.eqb suffix s
  || match s with
     | EmptyString => false
     | String _ s' => ends_with suffix s'
     end.

(** The status a line shows. *)
Definition shows_ALERT (line : string) : bool := ends_with ALERT line.
Definition shows_OK (line : string) : bool := ends_with OK line.

(** ** Configuration documents *)

(** The document is a mapping with the key. *)
Definition has_key (doc : value) (k : string) : bool :=
  match doc with
  | PyDict d => bool_decide (is_Some (d !! k))
  | _ => false
  end.

(** The level of a record, for the events that are records. *)
Definition level_of (ev : event) : option level :=
  match ev with
  | Log lvl _ _ => Some lvl
  | _ => None
  end.

(** A world with another mail server. *)
Definition with_transport (w : World) (server : MIMEText -> Smtp) : World :=
  {| psutil_read := psutil_read w; clock_sample := clock_sample w;
     console_out := console_out w; clock_check := clock_check w;
     smtp := server; sleep := sleep w |}.

(** ** Sample runs *)

Module Run.

(** A mail server that accepts the message. *)
Definition delivering : Smtp :=
  {| connect := fun _ _ => Ok tt; starttls := Ok tt; login := fun _ _ => Ok tt;
     send_message := Ok tt; quit := Ok tt |}.

(** A mail server that refuses the login. *)
Definition refusing : Smtp :=
  {| connect := fun _ _ => Ok tt; starttls := Ok tt;
     login := fun _ _ => Raise (Other "SMTPAuthenticationError");
     send_message := Ok tt; quit := Ok tt |}.

Definition lib : Library :=
  {| strftime := fun _ => "2024-12-01 09:00:00";
     repr_float := fun _ => "80.5";
     repr_object := fun _ => "<object>" |}.

(** No configuration file: the defaults apply. *)
Definition no_file : Startup :=
  {| load_yaml := fun _ => Raise (Other "FileNotFoundError");
     open_log_file := Ok tt;
     open_output := fun _ => Ok tt |}.

(** An empty configuration file: [yaml.safe_load] returns [None]. *)
Definition empty_file : Startup :=
  {| load_yaml := fun _ => Ok PyNone;
     open_log_file := Ok tt;
     open_output := fun _ => Ok tt |}.

(** The monitor built from the defaults. *)
Definition monitor : SystemMonitor :=
  {| config := default_config;
     thresholds := PyDict (<["cpu" := PyInt 80]> (<["memory" := PyInt 80]>
                           (<["disk" := PyInt 80]> ∅)));
     email_config :=
       PyDict (<["smtp_server" := PyStr "smtp.gmail.com"]>
              (<["smtp_port" := PyInt 587]>
              (<["sender" := PyStr "your-email@gmail.com"]>
              (<["password" := PyStr "your-app-password"]>
              (<["recipient" := PyStr "admin@example.com"]> ∅)))));
     interval := PyInt 300;
     alert_cooldown := PyInt 3600;
     last_alert_time := <["cpu" := Datetime.min]> (<["memory" := Datetime.min]>
                        (<["disk" := Datetime.min]> ∅)) |}.

(** 2024-12-01 09:00:00, which is 739220 days and nine hours after
    [datetime.min]. *)
Definition morning : Datetime.datetime := (739220 * 86400 + 9 * 3600) * 1000000.

(** A tick at that time: the cpu at 85%, the memory at 40%, the disk at
    exactly 80%; the sample is stamped first, the clock is read again
    two seconds later; the mail server refuses the login. *)
Definition tick : World :=
  {| psutil_read := Ok (85, 40, 80)%Q;
     clock_sample := morning;
     console_out := fun _ => Ok tt;
     clock_check := morning + 2000000;
     smtp := fun _ => refusing;
     sleep := fun _ => Ok tt |}.

Definition usage : ResourceUsage :=
  {| cpu_percent := 85; memory_percent := 40; disk_percent := 80;
     timestamp := morning |}.

(** A later tick, [seconds] after the clock reading of [tick], with the
    cpu at 90% and a mail server that delivers. *)
Definition later (seconds : Z) : World :=
  {| psutil_read := Ok (90, 40, 80)%Q;
     clock_sample := clock_check tick + seconds * 1000000 - 1000000;
     console_out := fun _ => Ok tt;
     clock_check := clock_check tick + seconds * 1000000;
     smtp := fun _ => delivering;
     sleep := fun _ => Ok tt |}.

(** A tick whose sampling fails. *)
Definition blind_tick : World :=
  {| psutil_read := Raise (Other "OSError");
     clock_sample := morning;
     console_out := fun _ => Ok tt;
     clock_check := morning + 2000000;
     smtp := fun _ => delivering;
     sleep := fun _ => Ok tt |}.

Definition args : Args :=
  {| args_config := "config.yaml"; args_interval := None;
     args_log_file := false; args_output := None |}.

(** The report of [usage] on [monitor]. *)
Definition report : string :=
  String.concat newline
    [ "";
      "System Resource Usage Report - 2024-12-01 09:00:00";
      rule;
      "CPU Usage    :  85.0% (Threshold: 80%) - [red]ALERT[/red]";
      "Memory Usage :  40.0% (Threshold: 80%) - [green]OK[/green]";
      "Disk Usage   :  80.0% (Threshold: 80%) - [green]OK[/green]";
      rule ].

End Run.

(** ** Further notions *)

(** A float can be ordered against the object: it is a number. *)
Definition comparable (v : value) : bool :=
  match v with
  | PyBool _ | PyInt _ | PyFloat _ => true
  | _ => false
  end.




(** The sleeps among the events. *)
Fixpoint sleeps_of (t : list event) : list value :=
  match t with
  | [] => []
  | Sleep v :: t' => v :: sleeps_of t'
  | _ :: t' => sleeps_of t'
  end.

(** The events of the blocks of a tick: calls of [send_alert], what they
    ask of the mail server and what they log. *)
Definition of_a_block (ev : event) : bool :=
  match ev with
  | ConsolePrint _ | Sleep _ => false
  | _ => true
  end.



(** The exception of the first [time.sleep(v)] that fails, if one does. *)
Fixpoint first_sleep_error (v : value) (ticks : list World) : option exn :=
  match ticks with
  | [] => None
  | w :: rest =>
      match sleep w v with
      | Ok _ => first_sleep_error v rest
      | Raise e => Some e
      end
  end.

(** The ticks that are started when each sleeps for [v]: all of them, or
    those up to the first whose sleep fails. *)
Fixpoint ticks_run (v : value) (ticks : list World) : nat :=
  match ticks with
  | [] => 0
  | w :: rest =>
      S (match sleep w v with
         | Ok _ => ticks_run v rest
         | Raise _ => 0
         end)
  end.

(** Further sample data. *)
Module Case.

(** A tick like [Run.tick] whose output cannot be written. *)
Definition mute_tick : World :=
  {| psutil_read := Ok (85, 40, 80)%Q;
     clock_sample := Run.morning;
     console_out := fun _ => Raise (Other "OSError");
     clock_check := Run.morning + 2000000;
     smtp := fun _ => Run.delivering;
     sleep := fun _ => Ok tt |}.

(** A tick like [Run.tick] with a mail server that delivers. *)
Definition good_tick : World := with_transport Run.tick (fun _ => Run.delivering).

(** A tick like [Run.tick] whose clock was set back to before
    [datetime.min] plus one hour. *)
Definition early_tick : World :=
  {| psutil_read := Ok (85, 40, 80)%Q;
     clock_sample := 1000000;
     console_out := fun _ => Ok tt;
     clock_check := 2000000;
     smtp := fun _ => Run.delivering;
     sleep := fun _ => Ok tt |}.

(** A tick whose sleep is refused. *)
Definition restless_tick : World :=
  {| psutil_read := Ok (85, 40, 80)%Q;
     clock_sample := Run.morning;
     console_out := fun _ => Ok tt;
     clock_check := Run.morning + 2000000;
     smtp := fun _ => Run.delivering;
     sleep := fun _ => Raise TypeError |}.


(** The default monitor with [alert_cooldown: null]. *)
Definition null_cooldown : SystemMonitor :=
  {| config := config Run.monitor;
     thresholds := thresholds Run.monitor;
     email_config := email_config Run.monitor;
     interval := PyInt 300;
     alert_cooldown := PyNone;
     last_alert_time := last_alert_time Run.monitor |}.

(** The default monitor without the password of the mail account. *)
Definition no_password : SystemMonitor :=
  {| config := config Run.monitor;
     thresholds := thresholds Run.monitor;
     email_config :=
       PyDict (<["smtp_server" := PyStr "smtp.gmail.com"]>
              (<["smtp_port" := PyInt 587]>
              (<["sender" := PyStr "your-email@gmail.com"]>
              (<["recipient" := PyStr "admin@example.com"]> ∅))));
     interval := PyInt 300;
     alert_cooldown := PyInt 3600;
     last_alert_time := last_alert_time Run.monitor |}.

(** The default monitor without the recipient. *)
Definition no_recipient : SystemMonitor :=
  {| config := config Run.monitor;
     thresholds := thresholds Run.monitor;
     email_config :=
       PyDict (<["smtp_server" := PyStr "smtp.gmail.com"]>
              (<["smtp_port" := PyInt 587]>
              (<["sender" := PyStr "your-email@gmail.com"]>
              (<["password" := PyStr "your-app-password"]> ∅))));
     interval := PyInt 300;
     alert_cooldown := PyInt 3600;
     last_alert_time := last_alert_time Run.monitor |}.

(** The default monitor after an alert of the cpu at the clock reading
    of [Run.tick]. *)
Definition alerted : SystemMonitor :=
  {| config := config Run.monitor;
     thresholds := thresholds Run.monitor;
     email_config := email_config Run.monitor;
     interval := PyInt 300;
     alert_cooldown := PyInt 3600;
     last_alert_time := <["cpu" := clock_check Run.tick]> (last_alert_time Run.monitor) |}.

(** A configuration file with the two sections and an interval, and no
    cooldown. *)
Definition document : gmap string value :=
  <["thresholds" := PyDict (<["cpu" := PyInt 90]> (<["memory" := PyFloat (Finite (171 # 2))]>
                            (<["disk" := PyInt 95]> ∅)))]>
  (<["email" := PyDict ∅]>
  (<["interval" := PyInt 60]> ∅)).

(** The monitor built from [document]. *)
Definition from_document : SystemMonitor :=
  {| config := PyDict document;
     thresholds := PyDict (<["cpu" := PyInt 90]> (<["memory" := PyFloat (Finite (171 # 2))]>
                           (<["disk" := PyInt 95]> ∅)));
     email_config := PyDict ∅;
     interval := PyInt 60;
     alert_cooldown := PyInt 3600;
     last_alert_time := last_alert_time Run.monitor |}.

(** A start from [document] in a directory that cannot be written to. *)
Definition with_document : Startup :=
  {| load_yaml := fun _ => Ok (PyDict document);
     open_log_file := Raise (Other "PermissionError");
     open_output := fun _ => Raise (Other "PermissionError") |}.

(** The command line [--interval 5 --output /var/log/usage.txt]. *)
Definition args : Args :=
  {| args_config := "config.yaml"; args_interval := Some 5;
     args_log_file := false; args_output := Some "/var/log/usage.txt" |}.


End Case.

(** * Properties *)

(** ** Rounding and formatting *)

(** [format] on some percentages, ties and a rounding up to 100
    included. *)
Example format_85 : format_5_1f 85 = " 85.0" /\ format_1f (1 # 4) = "0.2"
  /\ format_1f (3 # 4) = "0.8" /\ format_5_1f (7033355980557517 # 70368744177664) = "100.0"
  /\ format_5_1f (-5764607523034235 # 144115188075855872) = " -0.0".
Proof. vm_compute. repeat split; reflexivity. Qed.

(** [total_seconds] of some microsecond counts, as CPython returns them. *)
Example nearest_double_ex :
  nearest_double (3600000001 # 1000000) = (7916483722186223 # 2199023255552)%Q
  /\ nearest_double (300000 # 1000000) = (5404319552844595 # 18014398509481984)%Q
  /\ nearest_double (63866000000123457 # 1000000) = (4185522176008091 # 65536)%Q
  /\ nearest_double (1 # 1000000) = (4722366482869645 # 4722366482869645213696)%Q
  /\ nearest_double (63868608000000001 # 1000000) = 63868608000%Q.
Proof. vm_compute. repeat split; reflexivity. Qed.

Section Rounding.
Local Open Scope Q_scope.

Lemma Qround_half_even_ge_floor (y : Q) : (Qfloor y <= Qround_half_even y)%Z.
Proof.
  unfold Qround_half_even.
  destruct (y - inject_Z (Qfloor y) ?= 1 # 2); [destruct (Z.even _)|..]; lia.
Qed.

(** Rounding does not cross an integer from above. *)
Lemma Qround_half_even_ge (y : Q) (k : Z) :
  inject_Z k <= y -> (k <= Qround_half_even y)%Z.
Proof.
  intros H. apply Qfloor_resp_le in H. rewrite Qfloor_Z in H.
  pose proof (Qround_half_even_ge_floor y). lia.
Qed.

Lemma Qfloor_log2_le (x : Q) : 0 < x -> 2 ^ Qfloor_log2 x <= x.
Proof.
  intros Hx. unfold Qfloor_log2.
  destruct (Qle_bool _ x) eqn:Hb; [by apply Qle_bool_iff|].
  destruct x as [n d]. simpl Qnum; simpl Qden.
  assert (0 < n)%Z as Hn by (unfold Qlt in Hx; simpl in Hx; lia).
  set (a := Z.log2 n). set (b := Z.log2 (Z.pos d)).
  assert (0 <= a)%Z by apply Z.log2_nonneg.
  assert (0 <= b)%Z by apply Z.log2_nonneg.
  replace (a - b - 1)%Z with (a - (b + 1))%Z by lia.
  rewrite Qpower_minus by discriminate.
  rewrite <- (Zpower_Qpower 2 a), <- (Zpower_Qpower 2 (b + 1)) by lia.
  assert (0 < 2 ^ (b + 1))%Z as HB by (apply Z.pow_pos_nonneg; lia).
  apply Qle_shift_div_r.
  - unfold Qlt; simpl. lia.
  - destruct (Z.log2_spec n Hn) as [Ha _].
    destruct (Z.log2_spec (Z.pos d) eq_refl) as [_ Hd].
    fold a in Ha. fold b in Hd. replace (Z.succ b) with (b + 1)%Z in Hd by lia.
    unfold Qle; simpl. nia.
Qed.

(** Rounding does not cross an integer from below. *)
Lemma Qround_half_even_le (y : Q) (k : Z) :
  y <= inject_Z k -> (Qround_half_even y <= k)%Z.
Proof.
  intros H. pose proof (Qfloor_resp_le _ _ H) as Hf. rewrite Qfloor_Z in Hf.
  unfold Qround_half_even.
  destruct (Z.eq_dec (Qfloor y) k) as [Heq|Hne].
  - assert (y - inject_Z (Qfloor y) < 1 # 2) as Hlt.
    { rewrite Heq. generalize dependent (inject_Z k). intros z H. lra. }
    destruct (y - inject_Z (Qfloor y) ?= 1 # 2) eqn:Hc; [| lia |].
    + apply Qeq_alt in Hc. rewrite Hc in Hlt. by apply Qlt_irrefl in Hlt.
    + apply Qgt_alt in Hc. exfalso. eapply Qlt_irrefl, Qlt_trans; eassumption.
  - destruct (y - inject_Z (Qfloor y) ?= 1 # 2); [destruct (Z.even _)|..]; lia.
Qed.

(** A positive rational below [2^b], with [b <= 53], is rounded on a grid
    of step [1/P], where [P] is a power of two not below [2^(53-b)]: the
    nearest double is [r/P] for an integer [r] that no integer separates
    from [x * P]. *)
Lemma nearest_double_scaled (x : Q) (b : Z) :
  0 < x -> x < 2 ^ b -> (b <= 53)%Z ->
  exists P r : Z,
    (2 ^ (53 - b) <= P)%Z /\ (0 < P)%Z
    /\ nearest_double x == inject_Z r / inject_Z P
    /\ (forall k, inject_Z k <= x * inject_Z P -> (k <= r)%Z)
    /\ (forall k, x * inject_Z P <= inject_Z k -> (r <= k)%Z).
Proof.
  intros Hpos Hx Hb.
  unfold nearest_double.
  destruct (Qnum x) as [|n|n] eqn:Hn;
    [unfold Qlt in Hpos; simpl in Hpos; lia| |unfold Qlt in Hpos; simpl in Hpos; lia].
  pose proof (Qfloor_log2_le x Hpos) as Hfl.
  set (fl := Qfloor_log2 x) in *.
  assert (fl < b)%Z as Hlt.
  { apply (Qpower_lt_compat_l_inv 2); [|reflexivity].
    eapply Qle_lt_trans; eassumption. }
  set (P := (2 ^ (52 - fl))%Z).
  assert (0 < P)%Z as HP by (apply Z.pow_pos_nonneg; lia).
  assert (2 ^ (fl - 52) == / inject_Z P) as Hulp.
  { replace (fl - 52)%Z with (- (52 - fl))%Z by lia.
    rewrite Qpower_opp. unfold P. rewrite Zpower_Qpower by lia. reflexivity. }
  assert (x / 2 ^ (fl - 52) == x * inject_Z P) as Hy.
  { rewrite Hulp. unfold Qdiv. by rewrite Qinv_involutive. }
  exists P, (Qround_half_even (x / 2 ^ (fl - 52))).
  split_and!.
  - unfold P. apply Z.pow_le_mono_r; lia.
  - exact HP.
  - rewrite Qred_correct.
    generalize (Qround_half_even (x / 2 ^ (fl - 52))). intros r.
    rewrite Hulp. reflexivity.
  - intros k Hk. apply Qround_half_even_ge. by rewrite Hy.
  - intros k Hk. apply Qround_half_even_le. by rewrite Hy.
Qed.

(** The nearest double of a rational below [2^53] is not below an
    integer that the rational is not below. *)
Lemma nearest_double_ge (x : Q) (k : Z) :
  (0 < k)%Z -> inject_Z k <= x -> x < 2 ^ 53 -> inject_Z k <= nearest_double x.
Proof.
  intros Hk Hkx Hx.
  assert (0 < x) as Hpos.
  { eapply Qlt_le_trans; [|exact Hkx]. unfold Qlt; simpl. lia. }
  destruct (nearest_double_scaled x 53 Hpos Hx ltac:(lia))
    as (P & r & _ & HP & -> & Hge & _).
  assert (0 < inject_Z P) as HPq by (unfold Qlt; simpl; lia).
  apply Qle_shift_div_l; [exact HPq|].
  rewrite <- inject_Z_mult, <- Zle_Qle. apply Hge.
  rewrite inject_Z_mult. apply Qmult_le_compat_r; [exact Hkx|by apply Qlt_le_weak].
Qed.

(** Nor above an integer that the rational is not above. *)
Lemma nearest_double_le (x : Q) (k : Z) :
  (0 <= k)%Z -> x <= inject_Z k -> x < 2 ^ 53 -> nearest_double x <= inject_Z k.
Proof.
  intros Hk Hxk Hx.
  assert (0 <= inject_Z k) as Hk' by (unfold Qle; simpl; lia).
  destruct (Qlt_le_dec 0 x) as [Hpos|Hneg].
  - destruct (nearest_double_scaled x 53 Hpos Hx ltac:(lia))
      as (P & r & _ & HP & -> & _ & Hle).
    assert (0 < inject_Z P) as HPq by (unfold Qlt; simpl; lia).
    apply Qle_shift_div_r; [exact HPq|].
    rewrite <- inject_Z_mult, <- Zle_Qle. apply Hle.
    rewrite inject_Z_mult. apply Qmult_le_compat_r; [exact Hxk|by apply Qlt_le_weak].
  - apply Qle_trans with 0; [|exact Hk'].
    unfold nearest_double. destruct x as [[|n|n] d]; simpl Qnum; cbv zeta.
    + apply Qle_refl.
    + unfold Qle in Hneg; simpl in Hneg; lia.
    + set (p := - (Z.neg n # d)).
      assert (0 < p) as Hp by (unfold p, Qlt; simpl; lia).
      change (- Qred (inject_Z (Qround_half_even (p / 2 ^ (Qfloor_log2 p - 52)))
                      * 2 ^ (Qfloor_log2 p - 52)) <= 0).
      rewrite Qred_correct.
      assert (0 <= inject_Z (Qround_half_even (p / 2 ^ (Qfloor_log2 p - 52)))
                   * 2 ^ (Qfloor_log2 p - 52)) as Hnn.
      { apply Qmult_le_0_compat.
        - rewrite <- (Qfloor_Z 0) at 1. change (inject_Z 0 <= inject_Z
            (Qround_half_even (p / 2 ^ (Qfloor_log2 p - 52)))).
          rewrite <- Zle_Qle. apply Qround_half_even_ge.
          apply Qle_shift_div_l; [by apply Qpower_0_lt|].
          rewrite Qmult_0_l. by apply Qlt_le_weak.
        - apply Qpower_0_le. discriminate. }
      apply Qopp_le_compat in Hnn. exact Hnn.
Qed.


End Rounding.

(** The seconds since [datetime.min] of a time the system clock can
    show are not fewer than those of the epoch. *)
Lemma total_seconds_since_min (now : Datetime.datetime) :
  Datetime.unix_epoch <= now <= Datetime.max ->
  (Datetime.seconds_to_epoch
     <= Datetime.total_seconds (Datetime.sub now Datetime.min))%Q.
Proof.
  intros [Hlo Hhi]. unfold Datetime.total_seconds, Datetime.sub, Datetime.min.
  rewrite Z.sub_0_r.
  apply (nearest_double_ge (now # 1000000) 62135596800); [lia| |].
  - unfold Datetime.unix_epoch in Hlo. unfold Qle; simpl. lia.
  - unfold Datetime.max in Hhi.
    replace (2 ^ 53)%Q with (9007199254740992 # 1)%Q by (vm_compute; reflexivity).
    unfold Qlt; simpl. lia.
Qed.


Lemma string_app_assoc (a b c : string) : (a +:+ b) +:+ c = a +:+ (b +:+ c).
Proof.
  induction a as [|x a IH]; [reflexivity|].
  change (String x ((a +:+ b) +:+ c) = String x (a +:+ (b +:+ c))). by rewrite IH.
Qed.

Lemma string_length_app (a b : string) :
  String.length (a +:+ b) = (String.length a + String.length b)%nat.
Proof.
  induction a as [|x a IH]; [reflexivity|].
  change (S (String.length (a +:+ b)) = S (String.length a + String.length b)).
  by rewrite IH.
Qed.

Lemma ends_with_refl (s : string) : ends_with s s = true.
Proof.
  destruct s as [|c s]; [reflexivity|].
  change (String.eqb (String c s) (String c s) || ends_with (String c s) s = true).
  by rewrite String.eqb_refl.
Qed.

(** A text that ends with a suffix ends with the tail of that suffix. *)
Lemma ends_with_tail (c : ascii) (suffix s : string) :
  ends_with (String c suffix) s = true -> ends_with suffix s = true.
Proof.
  induction s as [|x s IH].
  - simpl. discriminate.
  - change (ends_with (String c suffix) (String x s))
      with (String.eqb (String c suffix) (String x s) || ends_with (String c suffix) s).
    change (ends_with suffix (String x s))
      with (String.eqb suffix (String x s) || ends_with suffix s).
    intros [Heq|Hrec]%orb_true_iff; apply orb_true_iff; right.
    + apply String.eqb_eq in Heq. injection Heq as _ <-. apply ends_with_refl.
    + by apply IH.
Qed.

(** A suffix no longer than [b] is a suffix of [a +:+ b] exactly when it
    is one of [b]. *)
Lemma ends_with_app (suffix a b : string) :
  (String.length suffix <= String.length b)%nat ->
  ends_with suffix (a +:+ b) = ends_with suffix b.
Proof.
  intros Hlen. induction a as [|x a IH]; [reflexivity|].
  change (ends_with suffix (String x a +:+ b))
    with (String.eqb suffix (String x (a +:+ b)) || ends_with suffix (a +:+ b)).
  rewrite IH. destruct (String.eqb_spec suffix (String x (a +:+ b))) as [->|_];
    [|reflexivity].
  simpl in Hlen. rewrite string_length_app in Hlen. lia.
Qed.


(** ** Laws of the monad *)

Lemma bind_assoc {S A B C} (c : M S A) (k : A -> M S B) (h : B -> M S C) (s : S) :
  bind (bind c k) h s = bind c (fun a => bind (k a) h) s.
Proof.
  unfold bind. destruct (c s) as [[[a|e] s1] t1]; [|reflexivity].
  destruct (k a s1) as [[[b|e] s2] t2]; [|reflexivity].
  destruct (h b s2) as [[r s3] t3]. by rewrite app_assoc.
Qed.

Lemma bind_ext {S A B} (c : M S A) (k k' : A -> M S B) (s : S) :
  (forall a s', k a s' = k' a s') -> bind c k s = bind c k' s.
Proof.
  intros H. unfold bind. destruct (c s) as [[[a|e] s1] t1]; [|reflexivity].
  by rewrite H.
Qed.

Lemma try_except_ext {S A} (body body' : M S A) (handler : exn -> M S A) (s : S) :
  (forall s', body s' = body' s') -> try_except body handler s = try_except body' handler s.
Proof. intros H. unfold try_except. by rewrite H. Qed.

(** A handler that returns absorbs every exception of the body. *)
Lemma try_except_absorbs {S} (body : M S unit) (handler : exn -> M S unit) (s : S) :
  (forall e s', result_of (handler e s') = Ok tt) ->
  result_of (try_except body handler s) = Ok tt.
Proof.
  intros H. unfold try_except. destruct (body s) as [[[[]|e] s1] t1]; [reflexivity|].
  specialize (H e s1). destruct (handler e s1) as [[r s2] t2]. exact H.
Qed.

Lemma alerts_of_app (t1 t2 : list event) :
  alerts_of (t1 ++ t2) = alerts_of t1 ++ alerts_of t2.
Proof.
  induction t1 as [|ev t1 IH]; [reflexivity|].
  destruct ev; simpl; by rewrite ?IH.
Qed.

Lemma reports_of_app (t1 t2 : list event) :
  reports_of (t1 ++ t2) = reports_of t1 ++ reports_of t2.
Proof.
  induction t1 as [|ev t1 IH]; [reflexivity|].
  destruct ev; simpl; by rewrite ?IH.
Qed.

Lemma elem_of_alerts_of (t : list event) (s msg : string) :
  (s, msg) ∈ alerts_of t <-> SendAlert s msg ∈ t.
Proof.
  induction t as [|ev t IH]; simpl.
  - split; intros H; inversion H.
  - destruct ev; rewrite ?elem_of_cons, IH; try (split; [tauto|intros [?|?]; [discriminate|tauto]]).
    split; (intros [?|?]; [left; congruence|tauto]).
Qed.

(** ** The alerting logic *)

Section Properties.
Context (lib : Library).

Ltac assoc_step :=
  first [ reflexivity | rewrite bind_assoc | apply bind_ext; intros ].

(** [check_resources] is the report followed by the block of each
    metric, in the order cpu, memory, disk. *)
Lemma check_resources_blocks (w : World) (self : SystemMonitor) :
  check_resources lib w self =
  try_except
    (let* usage := get_resource_usage w in
     let* report := format_usage_report lib usage in
     emit (ConsolePrint report) ;;;
     lift (console_out w report) ;;;
     alert_block w usage (clock_check w) Cpu ;;;
     alert_block w usage (clock_check w) Memory ;;;
     alert_block w usage (clock_check w) Disk)
    (fun e => log_error "Error in check_resources: " e) self.
Proof.
  unfold check_resources. apply try_except_ext. intros s0.
  symmetry. unfold alert_block. repeat assoc_step.
Qed.

(** [send_alert] returns whatever the transport does, leaves the
    monitor as it was, and is one attempt. *)
Lemma send_alert_spec (w : World) (sub msg : string) (self : SystemMonitor) :
  exists t, send_alert w sub msg self = (Ok tt, self, SendAlert sub msg :: t)
    /\ alerts_of t = [] /\ reports_of t = [].
Proof.
  cbv [send_alert try_except with_exit bind emit self_email_config gets lift
       log_info log_error].
  repeat (match goal with
          | |- context [match ?x with _ => _ end] =>
              lazymatch x with
              | context [match _ with _ => _ end] => fail
              | _ => destruct x eqn:?
              end
          end; simpl in *; simplify_eq);
  eexists; (split; [reflexivity|]); split; reflexivity.
Qed.

Lemma float_gt_number (x : Q) (v : value) (q : Q) :
  number v = Some q -> float_gt x v = Ok (Qgtb x q).
Proof.
  destruct v as [| b | z | [q'| |] | | | |]; simpl; intros H; by simplify_eq.
Qed.

Lemma Qgtb_lt (x y : Q) : Qgtb x y = true <-> (y < x)%Q.
Proof.
  unfold Qgtb. rewrite negb_true_iff, <- not_true_iff_false, Qle_bool_iff.
  split; [apply Qnot_le_lt | apply Qlt_not_le].
Qed.

Lemma limit_subscript (self : SystemMonitor) (m : metric) (q : Q) :
  limit self m = Some q ->
  exists v, subscript (thresholds self) (key m) = Ok v /\ number v = Some q.
Proof.
  unfold limit, subscript. destruct (thresholds self); try discriminate.
  destruct (d !! key m) as [v|]; simpl; [|discriminate]. eauto.
Qed.

(** One block: it calls [send_alert] and records the time exactly when
    it fires, and otherwise does nothing. *)
Lemma alert_block_spec (w : World) (u : ResourceUsage) (now : Datetime.datetime)
    (m : metric) (self : SystemMonitor) :
  exists r t,
    alert_block w u now m self =
      (r, (if fires self u now m then set_last_alert_time (key m) now self else self), t)
    /\ alerts_of t = (if fires self u now m then [(subject m, message m u)] else [])
    /\ reports_of t = []
    /\ (fires self u now m = true -> r = Ok tt)
    /\ (is_Some (limit self m) -> is_Some (last_alert_time self !! key m) ->
        is_Some (window self) -> r = Ok tt).
Proof.
  destruct (send_alert_spec w (subject m) (message m u) self) as (ts & Hs & Ha & Hr).
  unfold alert_block, fires, limit, window.
  cbv [bind self_thresholds self_last_alert_time gets lift dict_item ret modify].
  destruct (subscript (thresholds self) (key m)) as [lim|e] eqn:Hlim.
  2:{ do 2 eexists. repeat split; try done.
      intros [q Hq] _ _. unfold subscript in Hlim.
      destruct (thresholds self); try discriminate.
      destruct (d !! key m); simplify_eq/=. }
  assert (forall q, (match thresholds self with
                     | PyDict d => d !! key m ≫= number
                     | _ => None
                     end) = Some q -> number lim = Some q) as Hnum.
  { intros q. unfold subscript in Hlim. destruct (thresholds self); try discriminate.
    destruct (d !! key m); simplify_eq/=. done. }
  destruct (float_gt (percent m u) lim) as [[|]|e] eqn:Hover.
  - destruct (last_alert_time self !! key m) as [last|] eqn:Hlast.
    + destruct (float_gt _ (alert_cooldown self)) as [[|]|e] eqn:Hdue.
      * rewrite Hs. simpl. do 2 eexists. split; [reflexivity|].
        simpl. rewrite alerts_of_app, reports_of_app, Ha, Hr. repeat split; done.
      * do 2 eexists. repeat split; done.
      * do 2 eexists. repeat split; try done.
        intros _ _ [cd Hcd]. by rewrite (float_gt_number _ _ _ Hcd) in Hdue.
    + do 2 eexists. repeat split; try done; by intros _ [? ?] _.
  - do 2 eexists. repeat split; done.
  - do 2 eexists. repeat split; try done.
    intros [q Hq] _ _. by rewrite (float_gt_number _ _ _ (Hnum _ Hq)) in Hover.
Qed.

Lemma record_if_fields (b : bool) (k : string) (now : Datetime.datetime)
    (self : SystemMonitor) :
  config (record_if b k now self) = config self
  /\ thresholds (record_if b k now self) = thresholds self
  /\ email_config (record_if b k now self) = email_config self
  /\ interval (record_if b k now self) = interval self
  /\ alert_cooldown (record_if b k now self) = alert_cooldown self.
Proof. by destruct b. Qed.

Lemma record_if_lookup (b : bool) (k k' : string) (now : Datetime.datetime)
    (self : SystemMonitor) :
  last_alert_time (record_if b k now self) !! k' =
    if b && bool_decide (k = k') then Some now else last_alert_time self !! k'.
Proof.
  destruct b; simpl; [|reflexivity]. case_bool_decide as Hk.
  - subst. apply lookup_insert_eq.
  - by apply lookup_insert_ne.
Qed.

Lemma recorded_fields (b : metric -> bool) (now : Datetime.datetime)
    (self : SystemMonitor) :
  config (recorded b now self) = config self
  /\ thresholds (recorded b now self) = thresholds self
  /\ email_config (recorded b now self) = email_config self
  /\ interval (recorded b now self) = interval self
  /\ alert_cooldown (recorded b now self) = alert_cooldown self.
Proof. unfold recorded. by destruct (b Cpu), (b Memory), (b Disk). Qed.

(** After a tick the tracker holds [now] for the metrics alerted and
    is unchanged for the others. *)
Lemma recorded_lookup (b : metric -> bool) (now : Datetime.datetime)
    (self : SystemMonitor) (m : metric) :
  last_alert_time (recorded b now self) !! key m =
    if b m then Some now else last_alert_time self !! key m.
Proof.
  unfold recorded. rewrite !record_if_lookup.
  destruct m, (b Cpu), (b Memory), (b Disk); reflexivity.
Qed.

Lemma fires_ext (s s' : SystemMonitor) (u : ResourceUsage)
    (now : Datetime.datetime) (m : metric) :
  thresholds s = thresholds s' -> alert_cooldown s = alert_cooldown s' ->
  last_alert_time s !! key m = last_alert_time s' !! key m ->
  fires s u now m = fires s' u now m.
Proof. unfold fires. by intros -> -> ->. Qed.

Lemma fires_record_other (b : bool) (m m' : metric) (t : Datetime.datetime)
    (self : SystemMonitor) (u : ResourceUsage) (now : Datetime.datetime) :
  m' <> m ->
  fires (record_if b (key m') t self) u now m = fires self u now m.
Proof.
  intros Hne. destruct (record_if_fields b (key m') t self) as (_ & Ht & _ & _ & Hc).
  apply fires_ext; [done..|]. rewrite record_if_lookup.
  destruct b; [|reflexivity]. simpl. case_bool_decide as Hk; [|reflexivity].
  by destruct m, m'.
Qed.

Lemma well_configured_inv (self : SystemMonitor) :
  well_configured self = true ->
  (forall m, is_Some (limit self m) /\ is_Some (last_alert_time self !! key m))
  /\ is_Some (window self).
Proof.
  unfold well_configured. simpl. rewrite !andb_true_iff, !bool_decide_eq_true.
  intros [(? & ? & ? & _) ?]. split; [|done]. intros []; tauto.
Qed.

Lemma record_if_configured (b : bool) (m' : metric) (t : Datetime.datetime)
    (self : SystemMonitor) (m : metric) :
  (is_Some (limit self m) -> is_Some (limit (record_if b (key m') t self) m))
  /\ (is_Some (last_alert_time self !! key m) ->
      is_Some (last_alert_time (record_if b (key m') t self) !! key m))
  /\ (is_Some (window self) -> is_Some (window (record_if b (key m') t self))).
Proof.
  destruct b; simpl; [|done]. repeat split; try done.
  intros H. unfold set_last_alert_time; simpl.
  destruct (decide (key m' = key m)) as [->|Hne].
  - rewrite lookup_insert_eq. eauto.
  - by rewrite lookup_insert_ne.
Qed.

(** The three blocks in sequence: [b] tells which of them called
    [send_alert]; an exception ends the sequence early. *)
Lemma blocks_spec (w : World) (u : ResourceUsage) (now : Datetime.datetime)
    (self : SystemMonitor) :
  exists r t b,
    (alert_block w u now Cpu ;;;
     alert_block w u now Memory ;;;
     alert_block w u now Disk) self = (r, recorded b now self, t)
    /\ alerts_of t = planned b u
    /\ reports_of t = []
    /\ (forall m, b m = true -> fires self u now m = true)
    /\ (r = Ok tt -> forall m, b m = fires self u now m)
    /\ (well_configured self = true -> r = Ok tt).
Proof.
  set (f := fires self u now).
  set (s1 := record_if (f Cpu) (key Cpu) now self).
  set (s2 := record_if (f Memory) (key Memory) now s1).
  destruct (alert_block_spec w u now Cpu self)
    as (r1 & t1 & E1 & A1 & R1 & _ & W1).
  destruct (alert_block_spec w u now Memory s1)
    as (r2 & t2 & E2 & A2 & R2 & _ & W2).
  destruct (alert_block_spec w u now Disk s2)
    as (r3 & t3 & E3 & A3 & R3 & _ & W3).
  assert (fires s1 u now Memory = f Memory) as F2
    by (by apply fires_record_other).
  assert (fires s2 u now Disk = f Disk) as F3.
  { unfold s2. rewrite fires_record_other by done. by apply fires_record_other. }
  rewrite F2 in E2, A2. rewrite F3 in E3, A3.
  fold f in E1, A1. fold (record_if (f Cpu) (key Cpu) now self) in E1. fold s1 in E1.
  fold (record_if (f Memory) (key Memory) now s1) in E2. fold s2 in E2.
  fold (record_if (f Disk) (key Disk) now s2) in E3.
  assert (well_configured self = true ->
          r1 = Ok tt /\ r2 = Ok tt /\ r3 = Ok tt) as Hwf.
  { intros Hw. destruct (well_configured_inv _ Hw) as [Hm Hwin].
    split; [|split].
    - apply W1; [apply Hm..|done].
    - apply W2; [apply record_if_configured, Hm..|by apply (record_if_configured _ Cpu _ _ Cpu)].
    - apply W3; [apply record_if_configured, record_if_configured, Hm..|].
      by apply (record_if_configured _ Memory _ _ Cpu), (record_if_configured _ Cpu _ _ Cpu). }
  unfold bind. rewrite E1. destruct r1 as [[]|e1].
  - rewrite E2. destruct r2 as [[]|e2].
    + rewrite E3.
      exists r3, (t1 ++ t2 ++ t3), f. split; [reflexivity|].
      rewrite !alerts_of_app, !reports_of_app, A1, A2, A3, R1, R2, R3.
      unfold planned; simpl. rewrite app_nil_r.
      repeat split; try done. intros Hw. by apply Hwf.
    + exists (Raise e2), (t1 ++ t2),
        (fun m => match m with Disk => false | _ => f m end).
      split; [reflexivity|].
      rewrite !alerts_of_app, !reports_of_app, A1, A2, R1, R2.
      unfold planned; simpl. rewrite app_nil_r.
      repeat split; try done.
      * by intros [].
      * intros Hw. by destruct (Hwf Hw) as (_ & ? & _).
  - exists (Raise e1), t1,
      (fun m => match m with Cpu => f m | _ => false end).
    split; [reflexivity|]. rewrite A1, R1.
    unfold planned; simpl. rewrite app_nil_r.
    repeat split; try done.
    * by intros [].
    * intros Hw. by destruct (Hwf Hw) as (? & _).
Qed.

Lemma fires_breach_due (self : SystemMonitor) (u : ResourceUsage)
    (now : Datetime.datetime) (m : metric) :
  fires self u now m = breach self u m && due self now m.
Proof.
  unfold fires, breach, due.
  destruct (subscript _ _); [|reflexivity].
  destruct (float_gt (percent m u) _) as [[|]|]; try reflexivity.
  destruct (last_alert_time self !! key m); [|reflexivity].
  by destruct (float_gt _ (alert_cooldown self)) as [[|]|].
Qed.

(** Rendering the report reads the monitor and changes nothing. *)
Lemma format_usage_report_pure (u : ResourceUsage) (self : SystemMonitor) :
  exists r, format_usage_report lib u self = (r, self, []).
Proof.
  cbv [format_usage_report bind self_thresholds gets lift ret].
  repeat (match goal with
          | |- context [match ?x with _ => _ end] =>
              lazymatch x with
              | context [match _ with _ => _ end] => fail
              | _ => destruct x eqn:?
              end
          end; simpl in *; simplify_eq);
  eexists; reflexivity.
Qed.

Lemma get_resource_usage_sampled (w : World) (u : ResourceUsage) (self : SystemMonitor) :
  sample w = Some u -> get_resource_usage w self = (Ok u, self, []).
Proof.
  unfold sample. cbv [get_resource_usage try_except bind lift ret].
  destruct (psutil_read w) as [[[c m] d]|e]; [|discriminate].
  by intros [= <-].
Qed.

(** A tick whose sample is taken: the monitor records the time of the
    blocks that called [send_alert], and only of those. *)
Lemma check_resources_sampled (w : World) (self : SystemMonitor) (u : ResourceUsage) :
  sample w = Some u ->
  exists t b,
    check_resources lib w self = (Ok tt, recorded b (clock_check w) self, t)
    /\ alerts_of t = planned b u
    /\ (forall m, b m = true ->
          report_printed lib w u self = true /\ fires self u (clock_check w) m = true)
    /\ (forall text, text ∈ reports_of t ->
          result_of (format_usage_report lib u self) = Ok text)
    /\ (report_printed lib w u self = true ->
          (exists text, reports_of t = [text])
          /\ (well_configured self = true ->
              forall m, b m = fires self u (clock_check w) m)).
Proof.
  intros Hu. rewrite check_resources_blocks.
  unfold try_except, report_printed. unfold bind at 1.
  rewrite (get_resource_usage_sampled _ _ _ Hu).
  destruct (format_usage_report_pure u self) as [r Hr].
  unfold bind at 1. rewrite Hr. cbn [result_of fst].
  assert (recorded (fun _ => false) (clock_check w) self = self) as Hnone by done.
  destruct r as [text|e].
  2:{ exists [Log ERROR "Error in check_resources: " (Some e)], (fun _ => false).
      simpl. split_and!; try done. intros ? H. inversion H. }
  unfold bind at 1. unfold emit at 1. unfold bind at 1. unfold lift at 1.
  destruct (console_out w text) as [[]|e].
  2:{ exists [ConsolePrint text; Log ERROR "Error in check_resources: " (Some e)],
        (fun _ => false).
      simpl. split_and!; try done.
      intros ? H. apply list_elem_of_singleton in H. by subst. }
  destruct (blocks_spec w u (clock_check w) self)
    as (rb & tb & b & Eb & Ab & Rb & Fb & Ob & Wb).
  rewrite Eb. destruct rb as [[]|e].
  - exists (ConsolePrint text :: tb), b. simpl. rewrite ?app_nil_r, Rb.
    split_and!; try done.
    + intros m Hm. split; [done|by apply Fb].
    + intros ? H. apply list_elem_of_singleton in H. by subst.
    + intros _. split; [by eexists|]. intros _. by apply Ob.
  - exists (ConsolePrint text :: tb ++ [Log ERROR "Error in check_resources: " (Some e)]), b.
    simpl. rewrite alerts_of_app, reports_of_app, Rb, app_nil_r. simpl.
    split_and!; try done.
    + intros m Hm. split; [done|by apply Fb].
    + intros ? H. apply list_elem_of_singleton in H. by subst.
    + intros _. split; [by eexists|]. intros Hw. by specialize (Wb Hw).
Qed.


(** [get_resource_usage] raises exactly what the queries raise. *)
Lemma get_resource_usage_raises (w : World) (self : SystemMonitor) (e : exn) :
  result_of (get_resource_usage w self) = Raise e ->
  psutil_read w = Raise e
  /\ get_resource_usage w self
     = (Raise e, self, [Log ERROR "Failed to get resource usage: " (Some e)]).
Proof.
  cbv [get_resource_usage try_except bind lift ret log_error emit raise result_of].
  destruct (psutil_read w) as [[[c m] d]|e']; simpl; [discriminate|].
  by intros [= ->].
Qed.

(** A tick whose sampling fails logs the failure twice and does nothing
    else. *)
Lemma check_resources_sample_error (w : World) (self : SystemMonitor) (e : exn) :
  result_of (get_resource_usage w self) = Raise e ->
  check_resources lib w self
  = (Ok tt, self, [Log ERROR "Failed to get resource usage: " (Some e);
                   Log ERROR "Error in check_resources: " (Some e)]).
Proof.
  intros He. destruct (get_resource_usage_raises _ _ _ He) as [_ Hg].
  rewrite check_resources_blocks. unfold try_except. unfold bind at 1.
  by rewrite Hg.
Qed.

Lemma unsampled_raises (w : World) (self : SystemMonitor) :
  sample w = None -> exists e, result_of (get_resource_usage w self) = Raise e.
Proof.
  unfold sample.
  cbv [get_resource_usage try_except bind lift ret log_error emit raise result_of].
  destruct (psutil_read w) as [[[c mm] d]|e]; [discriminate|]. by exists e.
Qed.

Lemma recorded_ext (b b' : metric -> bool) (now : Datetime.datetime)
    (self : SystemMonitor) :
  (forall m, b m = b' m) -> recorded b now self = recorded b' now self.
Proof. intros H. unfold recorded. by rewrite !H. Qed.

Lemma planned_ext (b b' : metric -> bool) (u : ResourceUsage) :
  (forall m, b m = b' m) -> planned b u = planned b' u.
Proof. intros H. unfold planned. simpl. by rewrite !H. Qed.

(** An alert of a metric is among the calls planned exactly when its
    block is among those that fired. *)
Lemma alert_attempted_planned (b : metric -> bool) (u : ResourceUsage)
    (t : list event) (m : metric) :
  alerts_of t = planned b u -> (alert_attempted m t <-> b m = true).
Proof.
  intros Ht. unfold alert_attempted.
  setoid_rewrite <- elem_of_alerts_of. rewrite Ht. unfold planned. simpl.
  split.
  - intros [msg Hin].
    destruct (b Cpu) eqn:?, (b Memory) eqn:?, (b Disk) eqn:?; simpl in Hin;
      repeat (apply elem_of_cons in Hin as [Hin|Hin]);
      try (by apply elem_of_nil in Hin);
      destruct m; simplify_eq; done.
  - intros Hb. exists (message m u).
    destruct m; rewrite Hb; simpl;
      destruct (b Cpu), (b Memory), (b Disk); simpl;
      repeat (first [apply list_elem_of_here | apply list_elem_of_further]);
      discriminate.
Qed.

(** A tick that takes its sample and prints its report on a
    well-configured monitor: every block runs, the blocks that fire
    call [send_alert] and record the time, and nothing is raised. *)
Lemma tick_outcome (w : World) (self : SystemMonitor) (u : ResourceUsage) :
  sample w = Some u ->
  report_printed lib w u self = true ->
  well_configured self = true ->
  let o := check_resources lib w self in
  let now := clock_check w in
  result_of o = Ok tt
  /\ state_of o = recorded (fires self u now) now self
  /\ alerts_of (events_of o) = planned (fires self u now) u
  /\ (forall m, alert_attempted m (events_of o) <-> fires self u now m = true)
  /\ (forall m, last_alert_time (state_of o) !! key m
                = if fires self u now m then Some now
                  else last_alert_time self !! key m).
Proof.
  intros Hu Hp Hw.
  destruct (check_resources_sampled w self u Hu) as (t & b & E & A & _ & _ & Hb).
  destruct (Hb Hp) as [_ Hfires]. specialize (Hfires Hw).
  cbv zeta. rewrite E. cbn [result_of state_of events_of fst snd].
  rewrite (recorded_ext _ _ _ _ Hfires) in *.
  rewrite (planned_ext _ _ _ Hfires) in A.
  split_and!; try done.
  - intros m. by apply (alert_attempted_planned _ u).
  - intros m. apply recorded_lookup.
Qed.

(** Whatever happens in a tick, a cooldown time that changed belongs to
    a metric whose alert was attempted. *)
Lemma changed_only_if_attempted (w : World) (self : SystemMonitor) (m : metric) :
  let o := check_resources lib w self in
  last_alert_time (state_of o) !! key m <> last_alert_time self !! key m ->
  alert_attempted m (events_of o).
Proof.
  cbv zeta. destruct (sample w) as [u|] eqn:Hu.
  - destruct (check_resources_sampled w self u Hu) as (t & b & E & A & _).
    rewrite E. cbn [state_of events_of fst snd]. rewrite recorded_lookup.
    intros Hne. apply (alert_attempted_planned b u); [done|].
    by destruct (b m).
  - destruct (unsampled_raises w self Hu) as [e He].
    rewrite (check_resources_sample_error w self e He). done.
Qed.

(** [check_resources] absorbs every exception. *)
Lemma check_resources_returns (w : World) (self : SystemMonitor) :
  result_of (check_resources lib w self) = Ok tt.
Proof. unfold check_resources. by apply try_except_absorbs. Qed.

Lemma breach_numeric (self : SystemMonitor) (u : ResourceUsage) (m : metric) (q : Q) :
  limit self m = Some q -> breach self u m = Qgtb (percent m u) q.
Proof.
  intros Hq. destruct (limit_subscript _ _ _ Hq) as (v & Hv & Hn).
  unfold breach. by rewrite Hv, (float_gt_number _ _ _ Hn).
Qed.

Lemma due_numeric (self : SystemMonitor) (now last : Datetime.datetime)
    (m : metric) (cd : Q) :
  last_alert_time self !! key m = Some last -> window self = Some cd ->
  due self now m = Qgtb (Datetime.total_seconds (Datetime.sub now last)) cd.
Proof. intros Hl Hc. unfold due. by rewrite Hl, (float_gt_number _ _ _ Hc). Qed.

Lemma check_resources_unsampled (w : World) (self : SystemMonitor) :
  sample w = None ->
  state_of (check_resources lib w self) = self
  /\ alerts_of (events_of (check_resources lib w self)) = []
  /\ reports_of (events_of (check_resources lib w self)) = [].
Proof.
  intros Hu. destruct (unsampled_raises w self Hu) as [e He].
  by rewrite (check_resources_sample_error w self e He).
Qed.

Lemma well_configured_intro (self : SystemMonitor) :
  (forall m, is_Some (limit self m) /\ is_Some (last_alert_time self !! key m)) ->
  is_Some (window self) ->
  well_configured self = true.
Proof.
  intros Hm Hwin. unfold well_configured. simpl.
  rewrite !andb_true_iff, !bool_decide_eq_true.
  pose proof (Hm Cpu). pose proof (Hm Memory). pose proof (Hm Disk). tauto.
Qed.

(** A tick keeps a well-configured monitor well-configured. *)
Lemma check_resources_preserves_configuration (w : World) (self : SystemMonitor) :
  well_configured self = true ->
  well_configured (state_of (check_resources lib w self)) = true.
Proof.
  intros Hw. destruct (sample w) as [u|] eqn:Hu.
  - destruct (check_resources_sampled w self u Hu) as (t & b & E & _).
    rewrite E. cbn [state_of fst snd].
    destruct (well_configured_inv _ Hw) as [Hm Hwin].
    destruct (recorded_fields b (clock_check w) self) as (_ & Ht & _ & _ & Hc).
    apply well_configured_intro.
    + intros m. destruct (Hm m) as [Hl Hlast]. split.
      * unfold limit in *. by rewrite Ht.
      * rewrite recorded_lookup. by destruct (b m).
    + unfold window in *. by rewrite Hc.
  - by destruct (check_resources_unsampled w self Hu) as (-> & _).
Qed.

(** One iteration of the loop: the tick, the sleep and, when the sleep
    returns, the rest of the loop from the state the tick left. *)
Lemma monitor_loop_step (w : World) (rest : list World) (self : SystemMonitor) :
  monitor_loop lib (w :: rest) self
  = let s1 := state_of (check_resources lib w self) in
    let t1 := events_of (check_resources lib w self) in
    match sleep w (interval s1) with
    | Ok _ =>
        let '(r, s, t) := monitor_loop lib rest s1 in
        (r, s, t1 ++ Sleep (interval s1) :: t)
    | Raise e => (Raise e, s1, t1 ++ [Sleep (interval s1)])
    end.
Proof.
  cbn [monitor_loop]. unfold bind at 1.
  pose proof (check_resources_returns w self) as Hr.
  destruct (check_resources lib w self) as [[r s1] t1].
  cbn [state_of events_of result_of fst snd] in *. subst r.
  cbv [bind gets emit lift]. destruct (sleep w (interval s1)) as [[]|e].
  - by destruct (monitor_loop lib rest s1) as [[r s2] t2].
  - reflexivity.
Qed.

(** So does the loop, however many ticks it runs. *)
Lemma monitor_loop_preserves_configuration (ticks : list World) (self : SystemMonitor) :
  well_configured self = true ->
  well_configured (state_of (monitor_loop lib ticks self)) = true.
Proof.
  revert self. induction ticks as [|w rest IH]; intros self Hw; [exact Hw|].
  rewrite monitor_loop_step. cbv zeta.
  pose proof (check_resources_preserves_configuration w self Hw) as Hw1.
  destruct (sleep w _) as [[]|e]; [|exact Hw1].
  specialize (IH _ Hw1).
  by destruct (monitor_loop lib rest _) as [[r s2] t2].
Qed.

Lemma alert_attempted_app (m : metric) (t1 t2 : list event) :
  alert_attempted m (t1 ++ t2) <-> alert_attempted m t1 \/ alert_attempted m t2.
Proof.
  unfold alert_attempted. setoid_rewrite elem_of_app.
  split; [intros [msg [H|H]]; eauto|intros [[msg H]|[msg H]]; eauto].
Qed.

(** A run of the loop in which no alert of a metric is attempted leaves
    the cooldown time of that metric as it was. *)
Lemma monitor_loop_keeps_unalerted (ticks : list World) (self : SystemMonitor)
    (m : metric) :
  ~ alert_attempted m (events_of (monitor_loop lib ticks self)) ->
  last_alert_time (state_of (monitor_loop lib ticks self)) !! key m
  = last_alert_time self !! key m.
Proof.
  revert self. induction ticks as [|w rest IH]; intros self Hno; [reflexivity|].
  rewrite monitor_loop_step in *. cbv zeta in *.
  set (s1 := state_of (check_resources lib w self)) in *.
  set (t1 := events_of (check_resources lib w self)) in *.
  assert (~ alert_attempted m t1 ->
          last_alert_time s1 !! key m = last_alert_time self !! key m) as Htick.
  { intros Hn. destruct (decide (last_alert_time s1 !! key m
                                 = last_alert_time self !! key m)) as [|Hne]; [done|].
    destruct Hn. by apply changed_only_if_attempted. }
  destruct (sleep w (interval s1)) as [[]|e].
  - specialize (IH s1). destruct (monitor_loop lib rest s1) as [[r s2] t2].
    cbn [state_of events_of fst snd] in *.
    rewrite alert_attempted_app in Hno.
    rewrite IH, Htick; [done|tauto|].
    intros [msg Hin]. apply Hno. right. exists msg. by apply list_elem_of_further.
  - cbn [state_of events_of fst snd] in *.
    rewrite alert_attempted_app in Hno. apply Htick. tauto.
Qed.

(** C1 — In a tick that takes its sample and prints its report, a metric
    whose threshold is the number [q] is treated as breached exactly
    when its sampled value is strictly greater than [q]: the condition
    that opens its block holds if and only if [q < value], a value equal
    to (or below) the threshold opens no block and attempts no alert, and
    an alert is attempted exactly when the metric is breached and its
    cooldown comparison holds. *)
Theorem breach_iff_over_threshold (w : World) (self : SystemMonitor)
    (u : ResourceUsage) (m : metric) (q : Q)
    (Hu : sample w = Some u)
    (Hp : report_printed lib w u self = true)
    (Hw : well_configured self = true)
    (Hq : limit self m = Some q) :
  let o := check_resources lib w self in
  (breach self u m = true <-> (q < percent m u)%Q)
  /\ ((percent m u == q)%Q -> breach self u m = false)
  /\ ((percent m u <= q)%Q -> ~ alert_attempted m (events_of o))
  /\ (alert_attempted m (events_of o)
      <-> (q < percent m u)%Q /\ due self (clock_check w) m = true).
Proof.
  destruct (tick_outcome w self u Hu Hp Hw) as (_ & _ & _ & Ha & _).
  cbv zeta in *. pose proof (breach_numeric self u m q Hq) as Hb.
  assert (breach self u m = true <-> (q < percent m u)%Q) as Hiff
    by (rewrite Hb; apply Qgtb_lt).
  split_and!.
  - exact Hiff.
  - intros Heq. apply not_true_is_false. rewrite Hiff, Heq. apply Qlt_irrefl.
  - intros Hle. rewrite Ha, fires_breach_due, andb_true_iff, Hiff.
    intros [Hlt _]. by apply Qlt_not_le in Hlt.
  - by rewrite Ha, fires_breach_due, andb_true_iff, Hiff.
Qed.


(** C3 — In such a tick, for a metric that is breached and whose
    cooldown comparison holds: [send_alert] is called and the time read
    by [check_resources] is recorded for the metric, whatever the mail
    server does (the monitor left is the same for every behaviour of the
    transport).  [send_alert] itself never raises and leaves the monitor
    as it was, and [check_resources] returns normally.  In every tick,
    of any monitor, a cooldown time changes only for a metric whose alert
    was attempted in that tick. *)
Theorem cooldown_recorded_iff_attempted (w : World) (self : SystemMonitor)
    (u : ResourceUsage) (m : metric)
    (Hu : sample w = Some u)
    (Hp : report_printed lib w u self = true)
    (Hw : well_configured self = true)
    (Hb : breach self u m = true)
    (Hd : due self (clock_check w) m = true) :
  let o := check_resources lib w self in
  result_of o = Ok tt
  /\ alert_attempted m (events_of o)
  /\ last_alert_time (state_of o) !! key m = Some (clock_check w)
  /\ (forall server,
        let o' := check_resources lib (with_transport w server) self in
        result_of o' = Ok tt /\ state_of o' = state_of o
        /\ alert_attempted m (events_of o'))
  /\ (forall w' sub msg s,
        result_of (send_alert w' sub msg s) = Ok tt
        /\ state_of (send_alert w' sub msg s) = s)
  /\ (forall w' self' m',
        let o' := check_resources lib w' self' in
        last_alert_time (state_of o') !! key m' <> last_alert_time self' !! key m' ->
        alert_attempted m' (events_of o')).
Proof.
  destruct (tick_outcome w self u Hu Hp Hw) as (Hr & Hst & _ & Ha & Hs).
  cbv zeta in *.
  assert (fires self u (clock_check w) m = true) as Hf
    by (by rewrite fires_breach_due, Hb, Hd).
  split_and!.
  - exact Hr.
  - by apply Ha.
  - by rewrite Hs, Hf.
  - intros server.
    destruct (tick_outcome (with_transport w server) self u Hu Hp Hw)
      as (Hr' & Hst' & _ & Ha' & _).
    cbv zeta in *. cbn [with_transport clock_check] in *.
    split_and!; [done|by rewrite Hst', Hst|by apply Ha'].
  - intros w' sub msg s.
    destruct (send_alert_spec w' sub msg s) as (t & -> & _). done.
  - intros w' self' m'. apply changed_only_if_attempted.
Qed.

(** In a fresh monitor every cooldown time is [datetime.min]. *)
Lemma init_fresh (su : Startup) (config_path : string) (log_to_file : bool)
    (self : SystemMonitor) :
  result_of (__init__ su config_path log_to_file tt) = Ok self ->
  forall m, last_alert_time self !! key m = Some Datetime.min.
Proof.
  unfold __init__.
  cbv [bind lift ret result_of _setup_logging].
  destruct (_load_config su config_path tt) as [[[cfg|e] []] t0]; [|discriminate].
  destruct (subscript cfg "thresholds"); [|discriminate].
  destruct (subscript cfg "email"); [|discriminate].
  destruct (get cfg "interval" _); [|discriminate].
  destruct (get cfg "alert_cooldown" _); [|discriminate].
  destruct log_to_file; [destruct (open_log_file su) as [[]|]|]; simpl;
    try discriminate; intros [= <-] []; reflexivity.
Qed.

(** C4 — In the monitor that [__init__] builds, every cooldown time is
    [datetime.min], and the time of a metric stays so through the ticks
    that attempt no alert for it.  So, in the first tick that finds the
    metric breached (one that takes its sample and prints its report, at a
    time the system clock can show, from the epoch to [datetime.max]),
    the cooldown comparison holds and the alert is attempted, for every
    window shorter than the time from [datetime.min] to the epoch (some
    1969 years). *)
Theorem first_breach_alerts (su : Startup) (config_path : string)
    (log_to_file : bool) (fresh : SystemMonitor) (earlier : list World)
    (w : World) (self : SystemMonitor) (u : ResourceUsage) (m : metric) (cd : Q)
    (Hinit : result_of (__init__ su config_path log_to_file tt) = Ok fresh)
    (Hearlier : state_of (monitor_loop lib earlier fresh) = self)
    (Hquiet : ~ alert_attempted m (events_of (monitor_loop lib earlier fresh)))
    (Hu : sample w = Some u)
    (Hp : report_printed lib w u self = true)
    (Hw : well_configured self = true)
    (Hb : breach self u m = true)
    (Hc : window self = Some cd)
    (Hcd : (cd < Datetime.seconds_to_epoch)%Q)
    (Hnow : Datetime.unix_epoch <= clock_check w <= Datetime.max) :
  let o := check_resources lib w self in
  last_alert_time fresh !! key m = Some Datetime.min
  /\ last_alert_time self !! key m = Some Datetime.min
  /\ due self (clock_check w) m = true
  /\ alert_attempted m (events_of o)
  /\ last_alert_time (state_of o) !! key m = Some (clock_check w).
Proof.
  pose proof (init_fresh _ _ _ _ Hinit m) as Hl0.
  assert (last_alert_time self !! key m = Some Datetime.min) as Hl.
  { rewrite <- Hearlier, <- Hl0. by apply monitor_loop_keeps_unalerted. }
  assert (due self (clock_check w) m = true) as Hd.
  { rewrite (due_numeric _ _ _ _ _ Hl Hc). apply Qgtb_lt.
    eapply Qlt_le_trans; [exact Hcd|]. by apply total_seconds_since_min. }
  destruct (tick_outcome w self u Hu Hp Hw) as (_ & _ & _ & Ha & Hs).
  cbv zeta in *.
  assert (fires self u (clock_check w) m = true) as Hf
    by (by rewrite fires_breach_due, Hb, Hd).
  split_and!; [done|done|done|by apply Ha|by rewrite Hs, Hf].
Qed.


(** The OK mark is no suffix of a text that ends with the ALERT mark. *)
Lemma not_OK_before_ALERT (pre : string) : ends_with OK (pre +:+ ALERT) = false.
Proof.
  destruct (ends_with OK (pre +:+ ALERT)) eqn:E; [|reflexivity].
  change OK with (String "[" "green]OK[/green]") in E.
  apply ends_with_tail in E.
  rewrite ends_with_app in E by (vm_compute; lia). vm_compute in E. discriminate.
Qed.

(** The status of a line is the status it was built with. *)
Lemma metric_line_status (u : ResourceUsage) (m : metric) (shown : value)
    (over : bool) :
  shows_ALERT (metric_line lib u m shown over) = over
  /\ shows_OK (metric_line lib u m shown over) = negb over.
Proof.
  unfold shows_ALERT, shows_OK, metric_line.
  rewrite <- !string_app_assoc.
  destruct over; split; try apply not_OK_before_ALERT;
    rewrite ends_with_app by (vm_compute; lia); vm_compute; reflexivity.
Qed.

(** A report that is rendered shows the three thresholds looked up and,
    for each metric, the outcome of the comparison that opens its
    block. *)
Lemma format_usage_report_inv (u : ResourceUsage) (self : SystemMonitor)
    (text : string) :
  result_of (format_usage_report lib u self) = Ok text ->
  exists shown,
    (forall m, subscript (thresholds self) (key m) = Ok (shown m))
    /\ (forall m, float_gt (percent m u) (shown m) = Ok (breach self u m))
    /\ text = String.concat newline (report_lines lib u shown (breach self u)).
Proof.
  cbv [format_usage_report bind self_thresholds gets lift ret result_of].
  destruct (subscript (thresholds self) "cpu") as [c|] eqn:Hc; [|discriminate].
  destruct (float_gt (cpu_percent u) c) as [bc|] eqn:Hbc; [|discriminate].
  destruct (subscript (thresholds self) "memory") as [m|] eqn:Hm; [|discriminate].
  destruct (float_gt (memory_percent u) m) as [bm|] eqn:Hbm; [|discriminate].
  destruct (subscript (thresholds self) "disk") as [d|] eqn:Hd; [|discriminate].
  destruct (float_gt (disk_percent u) d) as [bd|] eqn:Hbd; [|discriminate].
  cbn [fst]. intros [= <-].
  exists (fun mt => match mt with Cpu => c | Memory => m | Disk => d end).
  assert (breach self u Cpu = bc /\ breach self u Memory = bm
          /\ breach self u Disk = bd) as (Ec & Em & Ed).
  { unfold breach. cbn [key percent]. by rewrite Hc, Hbc, Hm, Hbm, Hd, Hbd. }
  split_and!.
  - by intros [].
  - intros []; cbn [percent]; congruence.
  - unfold report_lines, metric_line. rewrite Ec, Em, Ed.
    cbn [String.concat label percent].
    rewrite !string_app_assoc. reflexivity.
Qed.

(** C8 — The report of a sample, when it is rendered, is made of seven
    lines, the fourth to sixth being those of cpu, memory and disk; the
    line of a metric ends with the ALERT mark exactly when the condition
    that opens the block of that metric in [check_resources] holds, and
    with the OK mark otherwise.  In the tick of that sample the report
    printed is this text, an alert attempted for a metric implies that
    its line shows ALERT, and, for a well-configured monitor, a line that
    shows ALERT and a cooldown comparison that holds imply the attempt. *)
Theorem report_status_agrees (w : World) (self : SystemMonitor)
    (u : ResourceUsage) (text : string)
    (Hu : sample w = Some u)
    (Hr : result_of (format_usage_report lib u self) = Ok text) :
  let o := check_resources lib w self in
  exists shown,
    let line m := metric_line lib u m (shown m) (breach self u m) in
    text = String.concat newline
             [""; "System Resource Usage Report - " +:+ strftime lib (timestamp u);
              rule; line Cpu; line Memory; line Disk; rule]
    /\ (forall m, shows_ALERT (line m) = breach self u m
                  /\ shows_OK (line m) = negb (breach self u m))
    /\ (forall printed, printed ∈ reports_of (events_of o) -> printed = text)
    /\ (forall m, alert_attempted m (events_of o) -> shows_ALERT (line m) = true)
    /\ (well_configured self = true -> report_printed lib w u self = true ->
        forall m, due self (clock_check w) m = true ->
                  (alert_attempted m (events_of o) <-> shows_ALERT (line m) = true)).
Proof.
  destruct (format_usage_report_inv u self text Hr) as (shown & _ & _ & Ht).
  cbv zeta. exists shown.
  destruct (check_resources_sampled w self u Hu) as (t & b & E & A & Hb & Hrep & _).
  assert (forall m, alert_attempted m (events_of (check_resources lib w self)) ->
                    breach self u m = true) as Hatt.
  { intros m Ha. rewrite E in Ha. cbn [events_of snd] in Ha.
    apply (alert_attempted_planned b u t m A) in Ha.
    destruct (Hb m Ha) as [_ Hf]. rewrite fires_breach_due in Hf.
    by apply andb_true_iff in Hf as [? _]. }
  split_and!.
  - exact Ht.
  - intros m. apply metric_line_status.
  - intros printed Hin. rewrite E in Hin. cbn [events_of snd] in Hin.
    specialize (Hrep printed Hin). congruence.
  - intros m Ha. destruct (metric_line_status u m (shown m) (breach self u m)) as [-> _].
    by apply Hatt.
  - intros Hw Hp m Hd.
    destruct (tick_outcome w self u Hu Hp Hw) as (_ & _ & _ & Ha & _).
    cbv zeta in Ha.
    destruct (metric_line_status u m (shown m) (breach self u m)) as [-> _].
    rewrite Ha, fires_breach_due, Hd. by rewrite andb_true_r.
Qed.

(** C6 — A tick whose sampling fails (get_resource_usage raises): the
    failure is logged twice and nothing else happens.  No report is
    printed, no alert is attempted, no cooldown time changes and
    [check_resources] returns normally; the loop then sleeps for the
    interval and, when the sleep returns, goes on with the next tick from
    the same state. *)
Theorem sampler_failure_skips_tick (w : World) (self : SystemMonitor) (e : exn)
    (rest : list World)
    (Hfail : result_of (get_resource_usage w self) = Raise e) :
  let o := check_resources lib w self in
  let logged := [Log ERROR "Failed to get resource usage: " (Some e);
                 Log ERROR "Error in check_resources: " (Some e)] in
  o = (Ok tt, self, logged)
  /\ reports_of (events_of o) = []
  /\ alerts_of (events_of o) = []
  /\ (forall m, ~ alert_attempted m (events_of o))
  /\ last_alert_time (state_of o) = last_alert_time self
  /\ (exists t, events_of (monitor_loop lib (w :: rest) self)
                = logged ++ Sleep (interval self) :: t)
  /\ (sleep w (interval self) = Ok tt ->
      result_of (monitor_loop lib (w :: rest) self)
        = result_of (monitor_loop lib rest self)
      /\ state_of (monitor_loop lib (w :: rest) self)
        = state_of (monitor_loop lib rest self)
      /\ events_of (monitor_loop lib (w :: rest) self)
        = logged ++ Sleep (interval self) :: events_of (monitor_loop lib rest self)).
Proof.
  pose proof (check_resources_sample_error w self e Hfail) as Hc.
  assert (monitor_loop lib (w :: rest) self
          = match sleep w (interval self) with
            | Ok _ =>
                let '(r, s, t) := monitor_loop lib rest self in
                (r, s, [Log ERROR "Failed to get resource usage: " (Some e);
                        Log ERROR "Error in check_resources: " (Some e);
                        Sleep (interval self)] ++ t)
            | Raise e' =>
                (Raise e', self,
                 [Log ERROR "Failed to get resource usage: " (Some e);
                  Log ERROR "Error in check_resources: " (Some e);
                  Sleep (interval self)])
            end) as Hloop.
  { cbn [monitor_loop]. unfold bind at 1. rewrite Hc.
    cbv [bind gets emit lift]. destruct (sleep w (interval self)) as [[]|e'].
    - by destruct (monitor_loop lib rest self) as [[r s'] t].
    - reflexivity. }
  cbv zeta. rewrite Hc, Hloop.
  cbn [events_of state_of result_of fst snd reports_of alerts_of].
  split_and!; try done.
  - intros m [msg Hin]. apply elem_of_alerts_of in Hin. simpl in Hin. inversion Hin.
  - destruct (sleep w (interval self)) as [[]|e'].
    + destruct (monitor_loop lib rest self) as [[r s'] t]. by eexists.
    + by eexists.
  - intros ->. by destruct (monitor_loop lib rest self) as [[r s'] t].
Qed.

(** C7 (amended) — When loading the configuration raises, [_load_config]
    returns the built-in defaults, whose thresholds are exactly
    cpu 80, memory 80, disk 80 and whose mail settings are the
    placeholders, and logs the failure once, at error level. *)
Theorem load_config_falls_back {S} (su : Startup) (config_path : string) (e : exn)
    (s : S)
    (Hfail : load_yaml su config_path = Raise e) :
  _load_config su config_path s
    = (Ok default_config, s, [Log ERROR "Failed to load config: " (Some e)])
  /\ subscript default_config "thresholds"
     = Ok (PyDict {[ "cpu" := PyInt 80; "memory" := PyInt 80; "disk" := PyInt 80 ]})
  /\ subscript default_config "email"
     = Ok (PyDict {[ "smtp_server" := PyStr "smtp.gmail.com";
                     "smtp_port" := PyInt 587;
                     "sender" := PyStr "your-email@gmail.com";
                     "password" := PyStr "your-app-password";
                     "recipient" := PyStr "admin@example.com" ]}).
Proof.
  split; [|split; reflexivity].
  cbv [_load_config try_except lift bind log_error emit ret]. by rewrite Hfail.
Qed.

(** C9 — Rendering the report twice from the same sample and the same
    monitor gives the same text: a call leaves the monitor as it found
    it and emits nothing, so the second call, made on the state the first
    one left, returns what the first returned. *)
Theorem report_is_idempotent (u : ResourceUsage) (self : SystemMonitor) :
  let first := format_usage_report lib u self in
  let second := format_usage_report lib u (state_of first) in
  state_of first = self
  /\ events_of first = []
  /\ result_of second = result_of first
  /\ state_of second = self.
Proof.
  destruct (format_usage_report_pure u self) as [r Hr].
  cbv zeta. rewrite Hr. cbn [state_of fst snd]. by rewrite Hr.
Qed.

(** C10 — A configuration file that parses, but to a document that is
    not a mapping holding both the thresholds and the email section (an
    empty file, which parses to None, included): [__init__] raises, a
    TypeError or the KeyError of the missing section, without logging and
    without falling back to the defaults; [main] then logs that
    monitoring stopped due to the error and runs no tick. *)
Theorem missing_section_is_fatal (su : Startup) (args : Args) (doc : value)
    (ticks : list World)
    (Hload : load_yaml su (args_config args) = Ok doc)
    (Hmissing : has_key doc "thresholds" && has_key doc "email" = false) :
  exists e,
    __init__ su (args_config args) (args_log_file args) tt = (Raise e, tt, [])
    /\ (e = TypeError \/ e = KeyError "thresholds" \/ e = KeyError "email")
    /\ _load_config su (args_config args) tt = (Ok doc, tt, [])
    /\ main lib su args ticks
       = [Log ERROR "Monitoring stopped due to error: " (Some e)].
Proof.
  assert (_load_config su (args_config args) tt = (Ok doc, tt, [])) as Hcfg.
  { cbv [_load_config try_except lift]. by rewrite Hload. }
  assert (exists e, __init__ su (args_config args) (args_log_file args) tt
                    = (Raise e, tt, [])
                    /\ (e = TypeError \/ e = KeyError "thresholds"
                        \/ e = KeyError "email")) as (e & Hinit & He).
  { unfold __init__. unfold bind at 1. rewrite Hcfg.
    cbv [bind lift]. unfold has_key in Hmissing.
    destruct doc as [| | | | | |d|]; simpl; try by (eexists; split; [|left]).
    destruct (d !! "thresholds") as [th|] eqn:Hth; simpl;
      [|by (eexists; split; [|right; left])].
    destruct (d !! "email") as [ec|] eqn:Hec; simpl;
      [|by (eexists; split; [|right; right])].
    rewrite !bool_decide_eq_true_2 in Hmissing by eauto. done. }
  exists e. split_and!; try done.
  unfold main, try_except. unfold bind at 1. by rewrite Hinit.
Qed.

End Properties.

(** ** The sample runs *)

(** The tick of [Run.tick] on the default monitor: the cpu, at 85 over a
    threshold of 80, is breached and alerted; the disk, at exactly 80, is
    not. *)
Lemma breach_iff_over_threshold_witness :
  sample Run.tick = Some Run.usage
  /\ report_printed Run.lib Run.tick Run.usage Run.monitor = true
  /\ well_configured Run.monitor = true
  /\ limit Run.monitor Cpu = Some 80%Q
  /\ (breach Run.monitor Run.usage Cpu = true <-> (80 < percent Cpu Run.usage)%Q)
  /\ ((percent Disk Run.usage <= 80)%Q ->
      ~ alert_attempted Disk
          (events_of (check_resources Run.lib Run.tick Run.monitor))).
Proof.
  split_and!; try (vm_compute; reflexivity).
  - apply (breach_iff_over_threshold Run.lib Run.tick Run.monitor Run.usage Cpu 80);
      vm_compute; reflexivity.
  - apply (breach_iff_over_threshold Run.lib Run.tick Run.monitor Run.usage Disk 80);
      vm_compute; reflexivity.
Defined.


(** The mail server of [Run.tick] refuses the login: the time is recorded
    all the same. *)
Lemma cooldown_recorded_iff_attempted_witness :
  sample Run.tick = Some Run.usage
  /\ report_printed Run.lib Run.tick Run.usage Run.monitor = true
  /\ well_configured Run.monitor = true
  /\ breach Run.monitor Run.usage Cpu = true
  /\ due Run.monitor (clock_check Run.tick) Cpu = true
  /\ result_of (check_resources Run.lib Run.tick Run.monitor) = Ok tt
  /\ alert_attempted Cpu (events_of (check_resources Run.lib Run.tick Run.monitor))
  /\ last_alert_time (state_of (check_resources Run.lib Run.tick Run.monitor)) !! key Cpu
     = Some (clock_check Run.tick).
Proof.
  destruct (cooldown_recorded_iff_attempted Run.lib Run.tick Run.monitor Run.usage Cpu)
    as (Hr & Ha & Hs & _); try (vm_compute; reflexivity).
  split_and!; try (vm_compute; reflexivity); assumption.
Defined.

(** After a start without a configuration file and a first tick whose
    sampling failed, the tick of [Run.tick] finds the cpu breached for the
    first time and alerts. *)
Lemma first_breach_alerts_witness :
  result_of (__init__ Run.no_file "config.yaml" false tt) = Ok Run.monitor
  /\ state_of (monitor_loop Run.lib [Run.blind_tick] Run.monitor) = Run.monitor
  /\ ~ alert_attempted Cpu
         (events_of (monitor_loop Run.lib [Run.blind_tick] Run.monitor))
  /\ sample Run.tick = Some Run.usage
  /\ report_printed Run.lib Run.tick Run.usage Run.monitor = true
  /\ well_configured Run.monitor = true
  /\ breach Run.monitor Run.usage Cpu = true
  /\ window Run.monitor = Some 3600%Q
  /\ (3600 < Datetime.seconds_to_epoch)%Q
  /\ Datetime.unix_epoch <= clock_check Run.tick <= Datetime.max
  /\ alert_attempted Cpu (events_of (check_resources Run.lib Run.tick Run.monitor)).
Proof.
  assert (Datetime.unix_epoch <= clock_check Run.tick <= Datetime.max) as Hnow
    by (vm_compute; split; discriminate).
  assert (~ alert_attempted Cpu
            (events_of (monitor_loop Run.lib [Run.blind_tick] Run.monitor))) as Hquiet.
  { intros [msg Hin]. vm_compute in Hin.
    repeat (apply elem_of_cons in Hin as [Hin|Hin]; [discriminate|]).
    by apply elem_of_nil in Hin. }
  destruct (first_breach_alerts Run.lib Run.no_file "config.yaml" false Run.monitor
              [Run.blind_tick] Run.tick Run.monitor Run.usage Cpu 3600)
    as (_ & _ & _ & Ha & _); try (vm_compute; reflexivity); try assumption.
  split_and!; try (vm_compute; reflexivity); try assumption; apply Hnow.
Defined.



(** The tick of [Run.blind_tick], whose sampling raises an OSError. *)
Lemma sampler_failure_skips_tick_witness :
  result_of (get_resource_usage Run.blind_tick Run.monitor) = Raise (Other "OSError")
  /\ check_resources Run.lib Run.blind_tick Run.monitor
     = (Ok tt, Run.monitor,
        [Log ERROR "Failed to get resource usage: " (Some (Other "OSError"));
         Log ERROR "Error in check_resources: " (Some (Other "OSError"))]).
Proof.
  split; [reflexivity|].
  apply (sampler_failure_skips_tick Run.lib Run.blind_tick Run.monitor
           (Other "OSError") []).
  reflexivity.
Defined.

(** A start without a configuration file. *)
Lemma load_config_falls_back_witness :
  load_yaml Run.no_file "config.yaml" = Raise (Other "FileNotFoundError")
  /\ _load_config Run.no_file "config.yaml" tt
     = (Ok default_config, tt,
        [Log ERROR "Failed to load config: " (Some (Other "FileNotFoundError"))]).
Proof.
  split; [reflexivity|].
  apply (load_config_falls_back Run.no_file "config.yaml" (Other "FileNotFoundError") tt).
  reflexivity.
Defined.

(** C7, as the claim states it, fails: when the file is missing, the one
    record of the fallback is at error level, and no record is at warning
    level. *)
Lemma load_config_fallback_not_warning :
  load_yaml Run.no_file "config.yaml" = Raise (Other "FileNotFoundError")
  /\ result_of (_load_config Run.no_file "config.yaml" tt) = Ok default_config
  /\ level_of <$> events_of (_load_config Run.no_file "config.yaml" tt) = [Some ERROR]
  /\ ~ (exists text exc,
          Log WARNING text exc ∈ events_of (_load_config Run.no_file "config.yaml" tt)).
Proof.
  split_and!; try reflexivity.
  intros (text & exc & Hin). vm_compute in Hin.
  apply list_elem_of_singleton in Hin. discriminate.
Qed.

(** A start on an empty configuration file. *)
Lemma missing_section_is_fatal_witness :
  load_yaml Run.empty_file (args_config Run.args) = Ok PyNone
  /\ has_key PyNone "thresholds" && has_key PyNone "email" = false
  /\ exists e,
       __init__ Run.empty_file (args_config Run.args) (args_log_file Run.args) tt
         = (Raise e, tt, [])
       /\ main Run.lib Run.empty_file Run.args [Run.tick]
          = [Log ERROR "Monitoring stopped due to error: " (Some e)].
Proof.
  split; [reflexivity|]. split; [reflexivity|].
  destruct (missing_section_is_fatal Run.lib Run.empty_file Run.args PyNone [Run.tick]
              eq_refl eq_refl) as (e & Hinit & _ & _ & Hmain).
  exists e. split; assumption.
Defined.

(** The report of [Run.tick] is [Run.report]; it is what the tick prints,
    and the cpu, whose line shows ALERT, is the metric alerted. *)
Lemma report_status_agrees_witness :
  sample Run.tick = Some Run.usage
  /\ result_of (format_usage_report Run.lib Run.usage Run.monitor) = Ok Run.report
  /\ (forall printed,
        printed ∈ reports_of (events_of (check_resources Run.lib Run.tick Run.monitor))
        -> printed = Run.report)
  /\ (forall m,
        alert_attempted m (events_of (check_resources Run.lib Run.tick Run.monitor)) ->
        breach Run.monitor Run.usage m = true).
Proof.
  destruct (report_status_agrees Run.lib Run.tick Run.monitor Run.usage Run.report)
    as (shown & _ & Hline & Hprinted & Hatt & _); try (vm_compute; reflexivity).
  split_and!; try (vm_compute; reflexivity); [exact Hprinted|].
  intros m Ha. destruct (Hline m) as [<- _]. by apply Hatt.
Defined.

(** Scenario B: a second sample, with the cpu at 90, ten seconds after the
    alert of [Run.tick]: one alert only, the first. *)
Example scenario_B :
  alerts_of (events_of (monitor_loop Run.lib [Run.tick; Run.later 10] Run.monitor))
  = [("High CPU Usage Alert", "CPU usage is 85.0%")].
Proof. vm_compute. reflexivity. Qed.

(** Scenario C: the second sample 3601 seconds after: a second alert.
    At exactly 3600 seconds there is none. *)
Example scenario_C :
  alerts_of (events_of (monitor_loop Run.lib [Run.tick; Run.later 3601] Run.monitor))
  = [("High CPU Usage Alert", "CPU usage is 85.0%");
     ("High CPU Usage Alert", "CPU usage is 90.0%")]
  /\ alerts_of (events_of (monitor_loop Run.lib [Run.tick; Run.later 3600] Run.monitor))
     = [("High CPU Usage Alert", "CPU usage is 85.0%")].
Proof. vm_compute. split; reflexivity. Qed.

(** * Further properties *)

(** ** One tick *)

Section More.
Context (lib : Library).

Lemma events_of_bind {S A B} (P : event -> Prop) (c : M S A) (k : A -> M S B) (s : S) :
  Forall P (events_of (c s)) ->
  (forall a s', Forall P (events_of (k a s'))) ->
  Forall P (events_of (bind c k s)).
Proof.
  intros Hc Hk. unfold bind. destruct (c s) as [[[a|e] s1] t1]; [|exact Hc].
  specialize (Hk a s1). destruct (k a s1) as [[r s2] t2].
  cbn [events_of snd] in *. by apply Forall_app.
Qed.

(** [send_alert] prints nothing and does not sleep. *)
Lemma send_alert_events (w : World) (sub msg : string) (self : SystemMonitor) :
  Forall (fun ev => of_a_block ev = true) (events_of (send_alert w sub msg self)).
Proof.
  cbv [send_alert try_except with_exit bind emit self_email_config gets lift
       log_info log_error events_of].
  repeat (match goal with
          | |- context [match ?x with _ => _ end] =>
              lazymatch x with
              | context [match _ with _ => _ end] => fail
              | _ => destruct x eqn:?
              end
          end; simpl in *; simplify_eq);
  repeat constructor.
Qed.

Lemma alert_block_events (w : World) (u : ResourceUsage) (now : Datetime.datetime)
    (m : metric) (self : SystemMonitor) :
  Forall (fun ev => of_a_block ev = true) (events_of (alert_block w u now m self)).
Proof.
  unfold alert_block, self_thresholds, self_last_alert_time.
  apply events_of_bind;
    [apply events_of_bind; [constructor|intros; constructor]|].
  intros lim s1.
  apply events_of_bind; [constructor|]. intros [] s2; [|constructor].
  apply events_of_bind;
    [apply events_of_bind; [constructor|intros; constructor]|].
  intros last s3.
  apply events_of_bind; [constructor|]. intros cd s4.
  apply events_of_bind; [constructor|]. intros [] s5; [|constructor].
  apply events_of_bind; [apply send_alert_events|]. intros _ s6. constructor.
Qed.

Lemma of_a_block_silent (t : list event) :
  Forall (fun ev => of_a_block ev = true) t -> reports_of t = [] /\ sleeps_of t = [].
Proof.
  induction 1 as [|ev t Hev _ [IH1 IH2]]; [done|]. by destruct ev.
Qed.

(** The shape of a tick that takes its sample: an error of the report
    ends it with one record; an error of the output ends it after the
    print; otherwise the three blocks run, an exception among them adding
    one record at the end. *)
Lemma check_resources_shape (w : World) (self : SystemMonitor) (u : ResourceUsage) :
  sample w = Some u ->
  match result_of (format_usage_report lib u self) with
  | Raise e =>
      check_resources lib w self
      = (Ok tt, self, [Log ERROR "Error in check_resources: " (Some e)])
  | Ok text =>
      match console_out w text with
      | Raise e =>
          check_resources lib w self
          = (Ok tt, self,
             [ConsolePrint text; Log ERROR "Error in check_resources: " (Some e)])
      | Ok _ =>
          exists tb b lg,
            check_resources lib w self
            = (Ok tt, recorded b (clock_check w) self, ConsolePrint text :: tb ++ lg)
            /\ alerts_of tb = planned b u
            /\ Forall (fun ev => of_a_block ev = true) tb
            /\ (lg = [] \/ exists e, lg = [Log ERROR "Error in check_resources: " (Some e)])
            /\ (forall m, b m = true -> fires self u (clock_check w) m = true)
      end
  end.
Proof.
  intros Hu. pose proof (check_resources_blocks lib w self) as E.
  unfold try_except in E. unfold bind at 1 in E.
  rewrite (get_resource_usage_sampled _ _ _ Hu) in E.
  destruct (format_usage_report_pure lib u self) as [r Hr].
  unfold bind at 1 in E. rewrite Hr in E. rewrite Hr. cbn [result_of fst].
  destruct r as [text|e]; [|exact E].
  unfold bind at 1 in E. unfold emit at 1 in E. unfold bind at 1 in E.
  unfold lift at 1 in E.
  destruct (console_out w text) as [[]|e]; [|exact E].
  destruct (blocks_spec w u (clock_check w) self)
    as (rb & tb & b & Eb & Ab & _ & Fb & _).
  assert (Forall (fun ev => of_a_block ev = true) tb) as Hq.
  { change tb with (events_of (rb, recorded b (clock_check w) self, tb)).
    rewrite <- Eb.
    apply events_of_bind; [apply alert_block_events|]. intros _ s1.
    apply events_of_bind; [apply alert_block_events|]. intros _ s2.
    apply alert_block_events. }
  rewrite Eb in E. rewrite E. destruct rb as [[]|e].
  - exists tb, b, []. rewrite app_nil_r. split_and!; try done. by left.
  - exists tb, b, [Log ERROR "Error in check_resources: " (Some e)].
    split_and!; try done. right. by eexists.
Qed.

(** A tick changes nothing of the monitor but the cooldown times. *)
Lemma check_resources_fields (w : World) (self : SystemMonitor) :
  let s' := state_of (check_resources lib w self) in
  config s' = config self
  /\ thresholds s' = thresholds self
  /\ email_config s' = email_config self
  /\ interval s' = interval self
  /\ alert_cooldown s' = alert_cooldown self.
Proof.
  cbv zeta. destruct (sample w) as [u|] eqn:Hu.
  - destruct (check_resources_sampled lib w self u Hu) as (t & b & E & _).
    rewrite E. apply recorded_fields.
  - by destruct (check_resources_unsampled lib w self Hu) as (-> & _).
Qed.

(** A block whose cooldown comparison does not hold attempts no alert and
    leaves the time of its metric, whatever else happens in the tick. *)
Lemma not_due_not_attempted (w : World) (self : SystemMonitor) (m : metric) :
  due self (clock_check w) m = false ->
  ~ alert_attempted m (events_of (check_resources lib w self))
  /\ last_alert_time (state_of (check_resources lib w self)) !! key m
     = last_alert_time self !! key m.
Proof.
  intros Hd. destruct (sample w) as [u|] eqn:Hu.
  - destruct (check_resources_sampled lib w self u Hu) as (t & b & E & A & Hb & _).
    rewrite E. cbn [state_of events_of fst snd].
    assert (b m = false) as Hbm.
    { destruct (b m) eqn:Hbm; [|done]. destruct (Hb m Hbm) as [_ Hf].
      rewrite fires_breach_due, Hd in Hf. by destruct (breach self u m). }
    split.
    + rewrite (alert_attempted_planned b u t m A), Hbm. discriminate.
    + by rewrite recorded_lookup, Hbm.
  - destruct (check_resources_unsampled lib w self Hu) as (-> & Ha & _).
    split; [|done]. intros [msg Hin]. apply elem_of_alerts_of in Hin.
    rewrite Ha in Hin. by apply elem_of_nil in Hin.
Qed.

(** The seconds of a negative or empty difference are not positive. *)
Lemma total_seconds_nonpos (td : Datetime.timedelta) :
  td <= 0 -> (Datetime.total_seconds td <= 0)%Q.
Proof.
  intros Htd. unfold Datetime.total_seconds.
  apply (nearest_double_le (td # 1000000) 0); [lia| |].
  - unfold Qle; simpl. lia.
  - apply Qle_lt_trans with 0%Q; [unfold Qle; simpl; lia|reflexivity].
Qed.

Lemma comparable_float_gt (x : Q) (v : value) :
  comparable v = false -> float_gt x v = Raise TypeError.
Proof. by destruct v as [| | |[]| | | |]. Qed.


(** X1 — In a tick, of any monitor and in any world, at most one report
    is printed and [send_alert] is called at most once for each metric, in
    the order cpu, memory, disk; it is never called unless the report was
    printed first, and the tick itself never sleeps. *)
Theorem tick_alerts_once_in_order (w : World) (self : SystemMonitor) :
  let t := events_of (check_resources lib w self) in
  (alerts_of t).*1 `sublist_of` [subject Cpu; subject Memory; subject Disk]
  /\ (length (reports_of t) <= 1)%nat
  /\ (alerts_of t <> [] ->
      exists text rest, t = ConsolePrint text :: rest /\ reports_of rest = [])
  /\ sleeps_of t = [].
Proof.
  cbv zeta. destruct (sample w) as [u|] eqn:Hu.
  - pose proof (check_resources_shape w self u Hu) as H.
    destruct (result_of (format_usage_report lib u self)) as [text|e].
    + destruct (console_out w text) as [[]|e].
      * destruct H as (tb & b & lg & -> & A & Hq & Hlg & _).
        destruct (of_a_block_silent tb Hq) as [Hr Hs].
        assert (alerts_of lg = [] /\ reports_of lg = [] /\ sleeps_of lg = [])
          as (Al & Rl & Sl) by (destruct Hlg as [->|[e ->]]; done).
        cbn [events_of snd alerts_of reports_of sleeps_of].
        rewrite alerts_of_app, reports_of_app, Al, Rl, Hr, A, !app_nil_r.
        split_and!.
        -- unfold planned. simpl.
           destruct (b Cpu), (b Memory), (b Disk); simpl;
             repeat first [apply sublist_nil | apply sublist_skip | apply sublist_cons].
        -- simpl. lia.
        -- intros _. exists text, (tb ++ lg). split; [done|].
           by rewrite reports_of_app, Hr, Rl.
        -- clear -Hs Sl. induction tb as [|ev tb IH]; [done|].
           destruct ev; simpl in *; try done; by apply IH.
      * rewrite H. simpl. split_and!; try done; try apply sublist_nil_l; try (simpl; lia);
        try (intros Hne; by destruct Hne).
    + rewrite H. simpl. split_and!; try done; try apply sublist_nil_l; try (simpl; lia);
        try (intros Hne; by destruct Hne).
  - destruct (unsampled_raises w self Hu) as [e He].
    rewrite (check_resources_sample_error lib w self e He). simpl.
    split_and!; try done; try apply sublist_nil_l; try (simpl; lia);
        try (intros Hne; by destruct Hne).
Qed.

(** X2 — When the report of a tick cannot be written to the console or
    the output file, the tick ends there: the error is logged, no alert is
    attempted and no cooldown time changes, even for a metric that is
    breached and due. *)
Theorem unprintable_report_suppresses_alerts (w : World) (self : SystemMonitor)
    (u : ResourceUsage) (text : string) (e : exn)
    (Hu : sample w = Some u)
    (Hr : result_of (format_usage_report lib u self) = Ok text)
    (Hout : console_out w text = Raise e) :
  check_resources lib w self
  = (Ok tt, self, [ConsolePrint text; Log ERROR "Error in check_resources: " (Some e)])
  /\ forall m, ~ alert_attempted m (events_of (check_resources lib w self)).
Proof.
  pose proof (check_resources_shape w self u Hu) as H. rewrite Hr, Hout in H.
  split; [exact H|]. intros m [msg Hin]. rewrite H in Hin. simpl in Hin.
  repeat (apply elem_of_cons in Hin as [Hin|Hin]; [discriminate|]).
  by apply elem_of_nil in Hin.
Qed.


(** X4 — A clock that reads a time not after the last alert of a metric
    (the local time was set back) suppresses the alert of that metric,
    for every window that is not negative, and leaves the recorded
    time. *)
Theorem clock_set_back_suppresses (w : World) (self : SystemMonitor)
    (m : metric) (last : Datetime.datetime) (cd : Q)
    (Hl : last_alert_time self !! key m = Some last)
    (Hc : window self = Some cd)
    (Hcd : (0 <= cd)%Q)
    (Hback : clock_check w <= last) :
  ~ alert_attempted m (events_of (check_resources lib w self))
  /\ last_alert_time (state_of (check_resources lib w self)) !! key m = Some last.
Proof.
  rewrite <- Hl. apply not_due_not_attempted.
  rewrite (due_numeric _ _ _ _ _ Hl Hc). apply not_true_is_false.
  rewrite Qgtb_lt. apply Qle_not_lt.
  apply Qle_trans with 0%Q; [|exact Hcd].
  apply total_seconds_nonpos. unfold Datetime.sub. lia.
Qed.



(** ** Sending an alert *)

Ltac not_in_list H :=
  repeat (apply elem_of_cons in H as [H|H]; [discriminate|]);
  by apply elem_of_nil in H.

(** X5 — With the five mail settings present, [send_alert] logs "Alert
    sent" exactly when the connection, STARTTLS, the login, the submission
    and the closing of the session all succeed; then the events are these
    six calls and the record.  In every other case the last event is the
    record of the failure, at error level. *)
Theorem alert_sent_iff_delivered (w : World) (self : SystemMonitor)
    (sub msg : string) (sender recipient server port password : value)
    (Hsender : subscript (email_config self) "sender" = Ok sender)
    (Hrecipient : subscript (email_config self) "recipient" = Ok recipient)
    (Hserver : subscript (email_config self) "smtp_server" = Ok server)
    (Hport : subscript (email_config self) "smtp_port" = Ok port)
    (Hpassword : subscript (email_config self) "password" = Ok password) :
  let mail := {| payload := msg; Subject := sub; From := sender; To := recipient |} in
  let srv := smtp w mail in
  let t := events_of (send_alert w sub msg self) in
  let delivered :=
    connect srv server port = Ok tt /\ starttls srv = Ok tt
    /\ login srv sender password = Ok tt /\ send_message srv = Ok tt
    /\ quit srv = Ok tt in
  (Log INFO ("Alert sent: " +:+ sub) None ∈ t <-> delivered)
  /\ (delivered ->
      t = [SendAlert sub msg; SmtpConnect server port; SmtpStartTLS;
           SmtpLogin sender password; SmtpSend mail; SmtpQuit;
           Log INFO ("Alert sent: " +:+ sub) None])
  /\ (~ delivered ->
      exists e, last t = Some (Log ERROR "Failed to send alert: " (Some e))).
Proof.
  cbv zeta.
  cbv [send_alert try_except with_exit bind emit self_email_config gets lift
       log_info log_error events_of].
  rewrite Hsender, Hrecipient, Hserver, Hport, Hpassword. cbn [fst snd app].
  set (srv := smtp w _).
  destruct (connect srv server port) as [[]|e1]; cbn [fst snd app];
    [|split_and!; [split; [intros H; not_in_list H|intros (? & _); discriminate]
                  |intros (? & _); discriminate|intros _; by eexists]].
  destruct (starttls srv) as [[]|e2]; cbn [fst snd app].
  2:{ destruct (quit srv) as [[]|e5]; cbn [fst snd app];
        (split_and!; [split; [intros H; not_in_list H|intros (_ & ? & _); discriminate]
                     |intros (_ & ? & _); discriminate|intros _; by eexists]). }
  destruct (login srv sender password) as [[]|e3]; cbn [fst snd app].
  2:{ destruct (quit srv) as [[]|e5]; cbn [fst snd app];
        (split_and!; [split; [intros H; not_in_list H|intros (_ & _ & ? & _); discriminate]
                     |intros (_ & _ & ? & _); discriminate|intros _; by eexists]). }
  destruct (send_message srv) as [[]|e4]; cbn [fst snd app].
  2:{ destruct (quit srv) as [[]|e5]; cbn [fst snd app];
        (split_and!; [split; [intros H; not_in_list H
                             |intros (_ & _ & _ & ? & _); discriminate]
                     |intros (_ & _ & _ & ? & _); discriminate|intros _; by eexists]). }
  destruct (quit srv) as [[]|e5]; cbn [fst snd app].
  - split_and!; [split; [done|]|done|intros H; by destruct H].
    intros _. repeat first [apply list_elem_of_here | apply list_elem_of_further].
  - split_and!; [split; [intros H; not_in_list H
                        |intros (_ & _ & _ & _ & ?); discriminate]
                |intros (_ & _ & _ & _ & ?); discriminate|intros _; by eexists].
Qed.

(** X6 — With the address of the server and the two headers present, a
    connection that [send_alert] opens is always closed, whatever happens
    inside the session (a refused STARTTLS, login or message, a missing
    password); a connection that could not be opened is not closed, and
    nothing else is asked of the server. *)
Theorem connection_always_closed (w : World) (self : SystemMonitor)
    (sub msg : string) (sender recipient server port : value)
    (Hsender : subscript (email_config self) "sender" = Ok sender)
    (Hrecipient : subscript (email_config self) "recipient" = Ok recipient)
    (Hserver : subscript (email_config self) "smtp_server" = Ok server)
    (Hport : subscript (email_config self) "smtp_port" = Ok port) :
  let mail := {| payload := msg; Subject := sub; From := sender; To := recipient |} in
  let t := events_of (send_alert w sub msg self) in
  (connect (smtp w mail) server port = Ok tt ->
   exists session after,
     t = SendAlert sub msg :: SmtpConnect server port :: SmtpStartTLS
           :: session ++ SmtpQuit :: after
     /\ (SmtpQuit ∉ session) /\ (SmtpQuit ∉ after))
  /\ (forall e, connect (smtp w mail) server port = Raise e ->
      t = [SendAlert sub msg; SmtpConnect server port;
           Log ERROR "Failed to send alert: " (Some e)]).
Proof.
  cbv zeta.
  cbv [send_alert try_except with_exit bind emit self_email_config gets lift
       log_info log_error events_of].
  rewrite Hsender, Hrecipient, Hserver, Hport. cbn [fst snd app].
  set (srv := smtp w _).
  destruct (connect srv server port) as [[]|e1]; cbn [fst snd app];
    [split; [intros _|intros ? [=]]|split; [intros [=]|by intros ? [= <-]]].
  destruct (starttls srv) as [[]|e2]; cbn [fst snd app].
  2:{ exists []. destruct (quit srv) as [[]|e5]; cbn [fst snd app];
        eexists; (split; [reflexivity|]); split; intros H; not_in_list H. }
  destruct (subscript (email_config self) "password") as [password|e0];
    cbn [fst snd app].
  2:{ exists []. destruct (quit srv) as [[]|e5]; cbn [fst snd app];
        eexists; (split; [reflexivity|]); split; intros H; not_in_list H. }
  destruct (login srv sender password) as [[]|e3]; cbn [fst snd app].
  2:{ exists [SmtpLogin sender password].
      destruct (quit srv) as [[]|e5]; cbn [fst snd app];
        eexists; (split; [reflexivity|]); split; intros H; not_in_list H. }
  exists [SmtpLogin sender password;
          SmtpSend {| payload := msg; Subject := sub; From := sender; To := recipient |}].
  destruct (send_message srv) as [[]|e4]; cbn [fst snd app];
    destruct (quit srv) as [[]|e5]; cbn [fst snd app];
    eexists; (split; [reflexivity|]); split; intros H; not_in_list H.
Qed.

(** X7 — When the mail settings lack the sender, the recipient, the
    server or the port (or are no mapping at all), [send_alert] contacts
    no server: it logs a KeyError or a TypeError and returns, leaving the
    monitor as it was. *)
Theorem missing_setting_contacts_no_server (w : World) (self : SystemMonitor)
    (sub msg : string)
    (Hmissing : forallb (has_key (email_config self))
                  ["sender"; "recipient"; "smtp_server"; "smtp_port"] = false) :
  exists e,
    (e = TypeError \/ exists k, e = KeyError k)
    /\ send_alert w sub msg self
       = (Ok tt, self, [SendAlert sub msg; Log ERROR "Failed to send alert: " (Some e)]).
Proof.
  assert (forall k, match subscript (email_config self) k with
                    | Ok _ => has_key (email_config self) k = true
                    | Raise e => e = TypeError \/ exists k', e = KeyError k'
                    end) as Hk.
  { intros k. unfold subscript, has_key. destruct (email_config self); eauto.
    destruct (d !! k) eqn:Hd; [|eauto]. apply bool_decide_eq_true. eauto. }
  cbv [send_alert try_except with_exit bind emit self_email_config gets lift
       log_info log_error].
  pose proof (Hk "sender") as H1. pose proof (Hk "recipient") as H2.
  pose proof (Hk "smtp_server") as H3. pose proof (Hk "smtp_port") as H4.
  destruct (subscript (email_config self) "sender") as [v1|e1];
    [|by exists e1].
  destruct (subscript (email_config self) "recipient") as [v2|e2];
    [|by exists e2].
  destruct (subscript (email_config self) "smtp_server") as [v3|e3];
    [|by exists e3].
  destruct (subscript (email_config self) "smtp_port") as [v4|e4];
    [|by exists e4].
  simpl in Hmissing. rewrite H1, H2, H3, H4 in Hmissing. discriminate.
Qed.

(** ** Starting *)

(** What [__init__] does once the configuration is loaded. *)
Lemma init_after_load (su : Startup) (config_path : string) (log_to_file : bool)
    (cfg : value) (t0 : list event) :
  _load_config su config_path tt = (Ok cfg, tt, t0) ->
  __init__ su config_path log_to_file tt
  = match cfg with
    | PyDict d =>
        match d !! "thresholds", d !! "email" with
        | Some th, Some ec =>
            match (if log_to_file then open_log_file su else Ok tt) with
            | Ok _ =>
                (Ok {| config := cfg; thresholds := th; email_config := ec;
                       interval := default (PyInt 300) (d !! "interval");
                       alert_cooldown := default (PyInt 3600) (d !! "alert_cooldown");
                       last_alert_time :=
                         <["cpu" := Datetime.min]> (<["memory" := Datetime.min]>
                         (<["disk" := Datetime.min]> ∅)) |}, tt, t0)
            | Raise e => (Raise e, tt, t0)
            end
        | None, _ => (Raise (KeyError "thresholds"), tt, t0)
        | Some _, None => (Raise (KeyError "email"), tt, t0)
        end
    | _ => (Raise TypeError, tt, t0)
    end.
Proof.
  intros Hcfg. unfold __init__. unfold bind at 1. rewrite Hcfg.
  cbv [bind lift ret _setup_logging subscript get].
  destruct cfg as [| | | | | |d|]; try by rewrite ?app_nil_r.
  destruct (d !! "thresholds") as [th|]; [|by rewrite ?app_nil_r].
  destruct (d !! "email") as [ec|]; [|by rewrite ?app_nil_r].
  destruct log_to_file; [destruct (open_log_file su) as [[]|e]|];
    by rewrite ?app_nil_r.
Qed.

Lemma load_config_cases (su : Startup) (config_path : string) :
  _load_config su config_path tt
  = match load_yaml su config_path with
    | Ok doc => (Ok doc, tt, [])
    | Raise e => (Ok default_config, tt, [Log ERROR "Failed to load config: " (Some e)])
    end.
Proof.
  cbv [_load_config try_except lift bind log_error emit ret].
  by destruct (load_yaml su config_path).
Qed.

(** X8 — [__init__] returns a monitor exactly when the configuration file
    either cannot be loaded (the defaults then apply) or holds a mapping
    with both the thresholds and the email section, and, if logging to a
    file is asked for, the log file can be opened.  Nothing else of the
    configuration is checked. *)
Theorem init_succeeds_iff (su : Startup) (config_path : string) (log_to_file : bool) :
  (exists self, result_of (__init__ su config_path log_to_file tt) = Ok self)
  <-> (forall doc, load_yaml su config_path = Ok doc ->
                   has_key doc "thresholds" && has_key doc "email" = true)
      /\ (log_to_file = true -> open_log_file su = Ok tt).
Proof.
  pose proof (load_config_cases su config_path) as Hl.
  destruct (load_yaml su config_path) as [doc|e] eqn:Hy.
  - rewrite (init_after_load _ _ log_to_file _ _ Hl).
    destruct doc as [| | | | | |d|];
      try (split; [intros [? [=]]|intros [H _]; by specialize (H _ eq_refl)]).
    cbn [has_key].
    destruct (d !! "thresholds") as [th|] eqn:Hth;
      [|split; [intros [? [=]]|intros [H _]; specialize (H _ eq_refl);
                cbn [has_key] in H; rewrite Hth in H; by vm_compute in H]].
    destruct (d !! "email") as [ec|] eqn:Hec;
      [|split; [intros [? [=]]|intros [H _]; specialize (H _ eq_refl);
                cbn [has_key] in H; rewrite Hth, Hec in H; by vm_compute in H]].
    destruct log_to_file.
    + destruct (open_log_file su) as [[]|e].
      * split; [|by eexists]. intros _. split; [|done].
        intros ? [= <-]. cbn [has_key]. by rewrite Hth, Hec.
      * split; [intros [? [=]]|intros [_ H]; by specialize (H eq_refl)].
    + split; [|by eexists]. intros _. split; [|done].
      intros ? [= <-]. cbn [has_key]. by rewrite Hth, Hec.
  - rewrite (init_after_load _ _ log_to_file _ _ Hl).
    change default_config with
      (PyDict (<["thresholds" :=
                  PyDict (<["cpu" := PyInt 80]> (<["memory" := PyInt 80]>
                          (<["disk" := PyInt 80]> ∅)))]>
              (<["email" :=
                  PyDict (<["smtp_server" := PyStr "smtp.gmail.com"]>
                         (<["smtp_port" := PyInt 587]>
                         (<["sender" := PyStr "your-email@gmail.com"]>
                         (<["password" := PyStr "your-app-password"]>
                         (<["recipient" := PyStr "admin@example.com"]> ∅)))))]> ∅))).
    cbv iota beta.
    rewrite lookup_insert_eq, lookup_insert_ne, lookup_insert_eq by done.
    destruct log_to_file.
    + destruct (open_log_file su) as [[]|e'].
      * split; [|by eexists]. intros _. by split.
      * split; [intros [? [=]]|intros [_ H]; by specialize (H eq_refl)].
    + split; [|by eexists]. intros _. by split.
Qed.

(** X9 — The monitor that [__init__] returns holds the configuration
    loaded (the defaults when the file could not be loaded), its two
    sections as they are, an interval of 300 and a cooldown window of 3600
    only when the configuration has no such key (a key present with a null
    or any other value is kept as it is), and the time [datetime.min] for
    cpu, memory and disk and for nothing else. *)
Theorem init_reads_settings (su : Startup) (config_path : string)
    (log_to_file : bool) (self : SystemMonitor)
    (Hinit : result_of (__init__ su config_path log_to_file tt) = Ok self) :
  exists d : gmap string value,
    config self = PyDict d
    /\ (forall doc, load_yaml su config_path = Ok doc -> doc = PyDict d)
    /\ (forall e, load_yaml su config_path = Raise e -> PyDict d = default_config)
    /\ d !! "thresholds" = Some (thresholds self)
    /\ d !! "email" = Some (email_config self)
    /\ interval self = default (PyInt 300) (d !! "interval")
    /\ alert_cooldown self = default (PyInt 3600) (d !! "alert_cooldown")
    /\ last_alert_time self
       = {[ "cpu" := Datetime.min; "memory" := Datetime.min; "disk" := Datetime.min ]}.
Proof.
  pose proof (load_config_cases su config_path) as Hl.
  assert (exists cfg t0, _load_config su config_path tt = (Ok cfg, tt, t0)
                         /\ (forall doc, load_yaml su config_path = Ok doc -> doc = cfg)
                         /\ (forall e, load_yaml su config_path = Raise e ->
                                       cfg = default_config))
    as (cfg & t0 & Hcfg & Hdoc & Hdef).
  { destruct (load_yaml su config_path) as [doc|e]; do 2 eexists;
      (split; [exact Hl|]); split; congruence. }
  rewrite (init_after_load _ _ log_to_file _ _ Hcfg) in Hinit.
  destruct cfg as [| | | | | |d|]; try discriminate.
  destruct (d !! "thresholds") as [th|] eqn:Hth; [|discriminate].
  destruct (d !! "email") as [ec|] eqn:Hec; [|discriminate].
  destruct (if log_to_file then open_log_file su else Ok tt) as [[]|e];
    [|discriminate].
  injection Hinit as <-. exists d. by split_and!.
Qed.

(** X10 — A configuration file that cannot be read or parsed never
    prevents the start: when the log file, if asked for, can be opened,
    [__init__] logs the failure and returns a monitor with thresholds of
    80 for the three metrics, a cooldown window of 3600 seconds, an
    interval of 300 seconds and the five placeholder mail settings. *)
Theorem init_recovers_from_load_failure (su : Startup) (config_path : string)
    (log_to_file : bool) (e : exn)
    (Hfail : load_yaml su config_path = Raise e)
    (Hlog : log_to_file = true -> open_log_file su = Ok tt) :
  exists self,
    __init__ su config_path log_to_file tt
    = (Ok self, tt, [Log ERROR "Failed to load config: " (Some e)])
    /\ well_configured self = true
    /\ (forall m, limit self m = Some 80%Q)
    /\ window self = Some 3600%Q
    /\ interval self = PyInt 300
    /\ forallb (has_key (email_config self))
         ["smtp_server"; "smtp_port"; "sender"; "password"; "recipient"] = true.
Proof.
  pose proof (load_config_cases su config_path) as Hl. rewrite Hfail in Hl.
  rewrite (init_after_load _ _ log_to_file _ _ Hl).
  assert ((if log_to_file then open_log_file su else Ok tt) = Ok tt) as ->
    by (destruct log_to_file; [by apply Hlog|done]).
  change default_config with
    (PyDict (<["thresholds" :=
                PyDict (<["cpu" := PyInt 80]> (<["memory" := PyInt 80]>
                        (<["disk" := PyInt 80]> ∅)))]>
            (<["email" :=
                PyDict (<["smtp_server" := PyStr "smtp.gmail.com"]>
                       (<["smtp_port" := PyInt 587]>
                       (<["sender" := PyStr "your-email@gmail.com"]>
                       (<["password" := PyStr "your-app-password"]>
                       (<["recipient" := PyStr "admin@example.com"]> ∅)))))]> ∅))).
  cbv iota beta.
  rewrite lookup_insert_eq, lookup_insert_ne, lookup_insert_eq by done.
  eexists. split; [reflexivity|].
  split_and!; try (vm_compute; reflexivity). by intros [].
Qed.

(** ** The loop *)

Lemma sleeps_of_app (t1 t2 : list event) :
  sleeps_of (t1 ++ t2) = sleeps_of t1 ++ sleeps_of t2.
Proof. induction t1 as [|[] t1 IH]; simpl; by rewrite ?IH. Qed.

(** A tick does not sleep and prints at most one report. *)
Lemma check_resources_quiet (w : World) (self : SystemMonitor) :
  sleeps_of (events_of (check_resources lib w self)) = []
  /\ (length (reports_of (events_of (check_resources lib w self))) <= 1)%nat.
Proof.
  destruct (sample w) as [u|] eqn:Hu.
  - pose proof (check_resources_shape w self u Hu) as H.
    destruct (result_of (format_usage_report lib u self)) as [text|e].
    + destruct (console_out w text) as [[]|e].
      * destruct H as (tb & b & lg & -> & _ & Hq & Hlg & _).
        destruct (of_a_block_silent tb Hq) as [Hr Hs].
        cbn [events_of snd sleeps_of reports_of].
        rewrite sleeps_of_app, reports_of_app, Hr, Hs.
        destruct Hlg as [->|[e ->]]; simpl; split; (done || lia).
      * rewrite H. simpl. split; [done|lia].
    + rewrite H. simpl. split; [done|lia].
  - destruct (unsampled_raises w self Hu) as [e He].
    rewrite (check_resources_sample_error lib w self e He). simpl. split; [done|lia].
Qed.

(** The loop changes nothing of the monitor but the cooldown times. *)
Lemma monitor_loop_fields (ticks : list World) (self : SystemMonitor) :
  let s' := state_of (monitor_loop lib ticks self) in
  config s' = config self
  /\ thresholds s' = thresholds self
  /\ email_config s' = email_config self
  /\ interval s' = interval self
  /\ alert_cooldown s' = alert_cooldown self.
Proof.
  cbv zeta. revert self. induction ticks as [|w rest IH]; intros self; [done|].
  rewrite monitor_loop_step. cbv zeta.
  destruct (check_resources_fields w self) as (H1 & H2 & H3 & H4 & H5).
  set (s1 := state_of (check_resources lib w self)) in *.
  destruct (sleep w (interval s1)) as [[]|e].
  - specialize (IH s1). destruct (monitor_loop lib rest s1) as [[r s2] t2].
    cbn [state_of fst snd] in *. destruct IH as (I1 & I2 & I3 & I4 & I5).
    split_and!; congruence.
  - cbn [state_of fst snd]. done.
Qed.

Lemma record_if_dom (b : bool) (k : string) (now : Datetime.datetime)
    (self : SystemMonitor) :
  (b = true -> k ∈ dom (last_alert_time self)) ->
  dom (last_alert_time (record_if b k now self)) = dom (last_alert_time self).
Proof.
  destruct b; [|done]. intros Hk. specialize (Hk eq_refl). simpl.
  apply dom_insert_lookup_L. by apply elem_of_dom.
Qed.

(** A tick records a time only under a key the tracker already has. *)
Lemma check_resources_dom (w : World) (self : SystemMonitor) :
  dom (last_alert_time (state_of (check_resources lib w self)))
  = dom (last_alert_time self).
Proof.
  destruct (sample w) as [u|] eqn:Hu.
  - destruct (check_resources_sampled lib w self u Hu) as (t & b & E & _ & Hb & _).
    rewrite E. cbn [state_of fst snd].
    assert (forall m, b m = true -> key m ∈ dom (last_alert_time self)) as Hk.
    { intros m Hm. destruct (Hb m Hm) as [_ Hf]. apply elem_of_dom.
      unfold fires in Hf. destruct (subscript _ _); [|done].
      destruct (float_gt _ _) as [[]|]; try done.
      destruct (last_alert_time self !! key m); [by eexists|done]. }
    unfold recorded.
    set (s1 := record_if (b Cpu) (key Cpu) (clock_check w) self).
    set (s2 := record_if (b Memory) (key Memory) (clock_check w) s1).
    assert (dom (last_alert_time s1) = dom (last_alert_time self)) as E1
      by (apply record_if_dom, Hk).
    assert (dom (last_alert_time s2) = dom (last_alert_time s1)) as E2
      by (apply record_if_dom; rewrite E1; apply Hk).
    rewrite record_if_dom; [congruence|]. rewrite E2, E1. apply Hk.
  - by destruct (check_resources_unsampled lib w self Hu) as (-> & _).
Qed.

(** X11 — However many ticks the loop runs and whatever happens in them,
    it leaves the configuration, the thresholds, the mail settings, the
    interval and the cooldown window of the monitor as they were, and the
    tracker of alert times keeps exactly the keys it had. *)
Theorem loop_keeps_settings (ticks : list World) (self : SystemMonitor) :
  let s' := state_of (monitor_loop lib ticks self) in
  config s' = config self
  /\ thresholds s' = thresholds self
  /\ email_config s' = email_config self
  /\ interval s' = interval self
  /\ alert_cooldown s' = alert_cooldown self
  /\ dom (last_alert_time s') = dom (last_alert_time self).
Proof.
  cbv zeta. pose proof (monitor_loop_fields ticks self) as (H1 & H2 & H3 & H4 & H5).
  split_and!; try done. clear.
  revert self. induction ticks as [|w rest IH]; intros self; [done|].
  rewrite monitor_loop_step. cbv zeta.
  pose proof (check_resources_dom w self) as Hd.
  set (s1 := state_of (check_resources lib w self)) in *.
  destruct (sleep w (interval s1)) as [[]|e].
  - specialize (IH s1). destruct (monitor_loop lib rest s1) as [[r s2] t2].
    cbn [state_of fst snd] in *. by rewrite IH.
  - done.
Qed.

(** What ends the loop, and how often it sleeps. *)
Lemma monitor_loop_outcome (ticks : list World) (self : SystemMonitor) :
  let o := monitor_loop lib ticks self in
  result_of o = match first_sleep_error (interval self) ticks with
                | None => Ok tt
                | Some e => Raise e
                end
  /\ sleeps_of (events_of o)
     = replicate (ticks_run (interval self) ticks) (interval self)
  /\ (length (reports_of (events_of o)) <= ticks_run (interval self) ticks)%nat
  /\ (first_sleep_error (interval self) ticks = None ->
      ticks_run (interval self) ticks = length ticks).
Proof.
  cbv zeta. revert self. induction ticks as [|w rest IH]; intros self; [done|].
  rewrite monitor_loop_step. cbv zeta.
  destruct (check_resources_fields w self) as (_ & _ & _ & Hi & _).
  destruct (check_resources_quiet w self) as [Hs Hr].
  set (s1 := state_of (check_resources lib w self)) in *.
  set (t1 := events_of (check_resources lib w self)) in *.
  cbn [first_sleep_error ticks_run]. rewrite Hi.
  destruct (sleep w (interval self)) as [[]|e].
  - specialize (IH s1). rewrite Hi in IH.
    destruct (monitor_loop lib rest s1) as [[r s2] t2].
    cbn [result_of state_of events_of fst snd] in *.
    destruct IH as (IH1 & IH2 & IH3 & IH4).
    rewrite sleeps_of_app, reports_of_app, Hs. cbn [sleeps_of reports_of app].
    rewrite IH2, length_app. split_and!; [done|done|lia|].
    intros Hn. cbn [length]. by rewrite IH4.
  - cbn [result_of state_of events_of fst snd].
    rewrite sleeps_of_app, reports_of_app, Hs. simpl. rewrite app_nil_r.
    split_and!; [done|done|lia|done].
Qed.

(** X12 — Only a failing [time.sleep] ends the loop: it raises the
    exception of the first sleep that fails and nothing else, so no
    failure of a sampler, a report, a threshold or a mail server stops the
    monitoring.  The loop sleeps once after each tick it runs, always for
    the interval of the monitor, and prints at most one report a tick. *)
Theorem loop_runs_until_sleep_fails (ticks : list World) (self : SystemMonitor) :
  let o := monitor_loop lib ticks self in
  result_of o = match first_sleep_error (interval self) ticks with
                | None => Ok tt
                | Some e => Raise e
                end
  /\ sleeps_of (events_of o)
     = replicate (ticks_run (interval self) ticks) (interval self)
  /\ (length (reports_of (events_of o)) <= ticks_run (interval self) ticks)%nat
  /\ (first_sleep_error (interval self) ticks = None ->
      ticks_run (interval self) ticks = length ticks).
Proof. exact (monitor_loop_outcome ticks self). Qed.

(** The loop attempts no alert of a metric when no tick does, along an
    invariant of the monitor. *)
Lemma monitor_loop_no_alert (Inv : SystemMonitor -> Prop) (m : metric)
    (ticks : list World) :
  (forall w s, w ∈ ticks -> Inv s ->
     ~ alert_attempted m (events_of (check_resources lib w s))
     /\ Inv (state_of (check_resources lib w s))) ->
  forall self, Inv self ->
    ~ alert_attempted m (events_of (monitor_loop lib ticks self)).
Proof.
  induction ticks as [|w rest IH]; intros Htick self Hinv.
  - intros [msg Hin]. by apply elem_of_nil in Hin.
  - rewrite monitor_loop_step. cbv zeta.
    destruct (Htick w self) as [Hno Hinv1]; [apply list_elem_of_here|done|].
    set (s1 := state_of (check_resources lib w self)) in *.
    set (t1 := events_of (check_resources lib w self)) in *.
    assert (~ alert_attempted m [Sleep (interval s1)]) as Hsl.
    { intros [msg Hin]. apply list_elem_of_singleton in Hin. discriminate. }
    destruct (sleep w (interval s1)) as [[]|e].
    + assert (~ alert_attempted m (events_of (monitor_loop lib rest s1))) as Hrest.
      { apply IH; [|done]. intros w' s Hw'. apply Htick. by apply list_elem_of_further. }
      destruct (monitor_loop lib rest s1) as [[r s2] t2].
      cbn [events_of snd] in *.
      change (t1 ++ Sleep (interval s1) :: t2)
        with (t1 ++ [Sleep (interval s1)] ++ t2).
      rewrite !alert_attempted_app. tauto.
    + cbn [events_of snd]. rewrite alert_attempted_app. tauto.
Qed.

(** X13 — A cooldown window that is not a number (a null, a quoted value,
    a list) disables every alert for the whole run: whatever the samples
    and the clock, the loop never calls [send_alert] and leaves every
    cooldown time as it was. *)
Theorem bad_window_never_alerts (ticks : list World) (self : SystemMonitor)
    (m : metric)
    (Hbad : comparable (alert_cooldown self) = false) :
  ~ alert_attempted m (events_of (monitor_loop lib ticks self))
  /\ last_alert_time (state_of (monitor_loop lib ticks self)) !! key m
     = last_alert_time self !! key m.
Proof.
  assert (~ alert_attempted m (events_of (monitor_loop lib ticks self))) as Hno.
  { apply (monitor_loop_no_alert
             (fun s => alert_cooldown s = alert_cooldown self)); [|done].
    intros w s _ Hs.
    destruct (check_resources_fields w s) as (_ & _ & _ & _ & Hcd).
    split; [|congruence].
    apply not_due_not_attempted. unfold due.
    destruct (last_alert_time s !! key m); [|done].
    rewrite Hs. by rewrite comparable_float_gt. }
  split; [exact Hno|]. by apply monitor_loop_keeps_unalerted.
Qed.

(** The seconds of a difference within the whole seconds of a window do
    not exceed the window. *)
Lemma total_seconds_within (td : Datetime.timedelta) (cd : Q) :
  (0 <= cd)%Q -> (cd < 2 ^ 53)%Q -> td <= Qfloor cd * 1000000 ->
  Qgtb (Datetime.total_seconds td) cd = false.
Proof.
  intros Hcd Hbig Htd. apply not_true_is_false. rewrite Qgtb_lt.
  apply Qle_not_lt. apply Qle_trans with (inject_Z (Qfloor cd)); [|apply Qfloor_le].
  assert (0 <= Qfloor cd) as Hk.
  { change 0 with (Qfloor 0). by apply Qfloor_resp_le. }
  unfold Datetime.total_seconds. apply nearest_double_le; [exact Hk| |].
  - unfold Qle; simpl. lia.
  - apply Qle_lt_trans with cd; [|exact Hbig].
    apply Qle_trans with (inject_Z (Qfloor cd)); [|apply Qfloor_le].
    unfold Qle; simpl. lia.
Qed.

(** While the clock stays within the whole seconds of the window after
    the recorded time of a metric, the loop attempts no alert of it. *)
Lemma within_window_no_alert (ticks : list World) (self : SystemMonitor)
    (m : metric) (last : Datetime.datetime) (cd : Q) :
  last_alert_time self !! key m = Some last ->
  window self = Some cd -> (0 <= cd)%Q -> (cd < 2 ^ 53)%Q ->
  (forall w, w ∈ ticks -> clock_check w <= last + Qfloor cd * 1000000) ->
  ~ alert_attempted m (events_of (monitor_loop lib ticks self)).
Proof.
  intros Hl Hc Hcd Hbig Hnear.
  apply (monitor_loop_no_alert
           (fun s => last_alert_time s !! key m = Some last
                     /\ alert_cooldown s = alert_cooldown self)); [|done].
  intros w s Hw [Hls Hcs].
  destruct (check_resources_fields w s) as (_ & _ & _ & _ & Hcd').
  assert (due s (clock_check w) m = false) as Hd.
  { rewrite (due_numeric s _ last m cd Hls); [|unfold window; by rewrite Hcs].
    apply total_seconds_within; [done|done|].
    unfold Datetime.sub. specialize (Hnear w Hw). lia. }
  destruct (not_due_not_attempted w s m Hd) as [Hno Hkeep].
  split; [exact Hno|]. split; congruence.
Qed.

(** X14 — After a tick in which the alert of a metric was attempted, the
    loop attempts no further alert of that metric in the ticks that
    follow, whatever they sample, as long as their clock reads no more
    than the whole seconds of the window past the reading of that tick
    (the window being a number from 0 to below 2^53). *)
Theorem no_second_alert_within_window (w : World) (rest : list World)
    (self : SystemMonitor) (m : metric) (cd : Q)
    (Hc : window self = Some cd)
    (Hcd : (0 <= cd)%Q)
    (Hbig : (cd < 2 ^ 53)%Q)
    (Hfirst : alert_attempted m (events_of (check_resources lib w self)))
    (Hnear : forall w', w' ∈ rest ->
               clock_check w' <= clock_check w + Qfloor cd * 1000000) :
  exists t2,
    events_of (monitor_loop lib (w :: rest) self)
    = events_of (check_resources lib w self) ++ t2
    /\ ~ alert_attempted m t2.
Proof.
  rewrite monitor_loop_step. cbv zeta.
  destruct (check_resources_fields w self) as (_ & _ & _ & _ & Hcd').
  assert (last_alert_time (state_of (check_resources lib w self)) !! key m
          = Some (clock_check w)) as Hl.
  { destruct (sample w) as [u|] eqn:Hu.
    - destruct (check_resources_sampled lib w self u Hu) as (t & b & E & A & _).
      rewrite E in Hfirst |- *. cbn [state_of events_of fst snd] in *.
      apply (alert_attempted_planned b u t m A) in Hfirst.
      by rewrite recorded_lookup, Hfirst.
    - destruct (check_resources_unsampled lib w self Hu) as (_ & Ha & _).
      destruct Hfirst as [msg Hin]. apply elem_of_alerts_of in Hin.
      rewrite Ha in Hin. by apply elem_of_nil in Hin. }
  set (s1 := state_of (check_resources lib w self)) in *.
  set (t1 := events_of (check_resources lib w self)) in *.
  assert (~ alert_attempted m [Sleep (interval s1)]) as Hsl.
  { intros [msg Hin]. apply list_elem_of_singleton in Hin. discriminate. }
  destruct (sleep w (interval s1)) as [[]|e].
  - assert (~ alert_attempted m (events_of (monitor_loop lib rest s1))) as Hrest.
    { apply (within_window_no_alert rest s1 m (clock_check w) cd); try done.
      unfold window. by rewrite Hcd'. }
    destruct (monitor_loop lib rest s1) as [[r s2] t2].
    cbn [events_of snd] in *. eexists. split; [reflexivity|].
    change (Sleep (interval s1) :: t2) with ([Sleep (interval s1)] ++ t2).
    rewrite alert_attempted_app. tauto.
  - cbn [events_of snd]. by eexists.
Qed.

(** A tick moves the recorded time of a metric to its own clock reading,
    and only forwards, or leaves it. *)
Lemma check_resources_forwards (w : World) (self : SystemMonitor) (m : metric)
    (last : Datetime.datetime) (cd : Q) :
  last_alert_time self !! key m = Some last ->
  window self = Some cd -> (0 <= cd)%Q ->
  let s' := state_of (check_resources lib w self) in
  last_alert_time s' !! key m = Some last
  \/ (last_alert_time s' !! key m = Some (clock_check w) /\ last < clock_check w).
Proof.
  intros Hl Hc Hcd. cbv zeta.
  destruct (due self (clock_check w) m) eqn:Hd.
  - assert (last < clock_check w) as Hlt.
    { rewrite (due_numeric _ _ _ _ _ Hl Hc), Qgtb_lt in Hd.
      destruct (Z_lt_le_dec last (clock_check w)) as [|Hle]; [done|].
      exfalso. apply (Qlt_not_le _ _ Hd).
      apply Qle_trans with 0%Q; [|exact Hcd].
      apply total_seconds_nonpos. unfold Datetime.sub. lia. }
    destruct (sample w) as [u|] eqn:Hu.
    + destruct (check_resources_sampled lib w self u Hu) as (t & b & E & _).
      rewrite E. cbn [state_of fst snd]. rewrite recorded_lookup.
      destruct (b m); [by right|by left].
    + destruct (check_resources_unsampled lib w self Hu) as (-> & _). by left.
  - left. rewrite <- Hl. by apply not_due_not_attempted.
Qed.

(** X15 — With a window that is a number and not negative, the time the
    monitor keeps for a metric never goes back: after any run of the loop
    it is the time it was, or the later clock reading of one of the ticks
    run. *)
Theorem cooldown_times_never_go_back (ticks : list World) (self : SystemMonitor)
    (m : metric) (last : Datetime.datetime) (cd : Q)
    (Hl : last_alert_time self !! key m = Some last)
    (Hc : window self = Some cd)
    (Hcd : (0 <= cd)%Q) :
  exists last',
    last_alert_time (state_of (monitor_loop lib ticks self)) !! key m = Some last'
    /\ last <= last'
    /\ (last' = last \/ exists w, w ∈ ticks /\ last' = clock_check w).
Proof.
  revert self last Hl Hc. induction ticks as [|w rest IH]; intros self last Hl Hc.
  - exists last. split_and!; [done|lia|by left].
  - rewrite monitor_loop_step. cbv zeta.
    destruct (check_resources_fields w self) as (_ & _ & _ & _ & Hcd').
    pose proof (check_resources_forwards w self m last cd Hl Hc Hcd) as Hstep.
    cbv zeta in Hstep.
    set (s1 := state_of (check_resources lib w self)) in *.
    assert (window s1 = Some cd) as Hc1 by (unfold window; by rewrite Hcd').
    assert (exists l1, last_alert_time s1 !! key m = Some l1 /\ last <= l1
                       /\ (l1 = last \/ l1 = clock_check w))
      as (l1 & Hl1 & Hle1 & Hor1).
    { destruct Hstep as [H|[H Hlt]].
      - exists last. split_and!; [done|lia|by left].
      - exists (clock_check w). split_and!; [done|lia|by right]. }
    destruct (sleep w (interval s1)) as [[]|e].
    + destruct (IH s1 l1 Hl1 Hc1) as (l2 & Hl2 & Hle2 & Hor2).
      destruct (monitor_loop lib rest s1) as [[r s2] t2].
      cbn [state_of fst snd] in *. exists l2. split_and!; [done|lia|].
      destruct Hor2 as [->|[v [Hv ->]]].
      * destruct Hor1 as [-> | ->]; [by left|].
        right. exists w. split; [apply list_elem_of_here|done].
      * right. exists v. split; [by apply list_elem_of_further|done].
    + cbn [state_of fst snd]. exists l1. split_and!; [done|done|].
      destruct Hor1 as [-> | ->]; [by left|].
      right. exists w. split; [apply list_elem_of_here|done].
Qed.

(** ** A whole run *)







End More.

(** ** Further sample runs *)

(** The report of [Run.usage] cannot be written on [Case.mute_tick]. *)
Lemma unprintable_report_suppresses_alerts_witness :
  sample Case.mute_tick = Some Run.usage
  /\ result_of (format_usage_report Run.lib Run.usage Run.monitor) = Ok Run.report
  /\ console_out Case.mute_tick Run.report = Raise (Other "OSError")
  /\ check_resources Run.lib Case.mute_tick Run.monitor
     = (Ok tt, Run.monitor,
        [ConsolePrint Run.report;
         Log ERROR "Error in check_resources: " (Some (Other "OSError"))])
  /\ ~ alert_attempted Cpu
         (events_of (check_resources Run.lib Case.mute_tick Run.monitor)).
Proof.
  destruct (unprintable_report_suppresses_alerts Run.lib Case.mute_tick Run.monitor
              Run.usage Run.report (Other "OSError")) as [H Hno];
    [vm_compute; reflexivity..|].
  split_and!; [vm_compute; reflexivity..|exact H|exact (Hno Cpu)].
Defined.


(** A clock set back to the first year after an alert of the cpu. *)
Lemma clock_set_back_suppresses_witness :
  last_alert_time Case.alerted !! key Cpu = Some (clock_check Run.tick)
  /\ window Case.alerted = Some 3600%Q
  /\ (0 <= 3600)%Q
  /\ clock_check Case.early_tick <= clock_check Run.tick
  /\ ~ alert_attempted Cpu
         (events_of (check_resources Run.lib Case.early_tick Case.alerted))
  /\ last_alert_time (state_of (check_resources Run.lib Case.early_tick Case.alerted))
       !! key Cpu = Some (clock_check Run.tick).
Proof.
  assert ((0 <= 3600)%Q) as Hcd by (vm_compute; discriminate).
  assert (clock_check Case.early_tick <= clock_check Run.tick) as Hback
    by (vm_compute; discriminate).
  destruct (clock_set_back_suppresses Run.lib Case.early_tick Case.alerted Cpu
              (clock_check Run.tick) 3600) as [Hno Hkeep];
    [vm_compute; reflexivity|vm_compute; reflexivity|exact Hcd|exact Hback|].
  split_and!; [vm_compute; reflexivity|vm_compute; reflexivity|exact Hcd|exact Hback
              |exact Hno|exact Hkeep].
Defined.

(** The alert of the cpu on a mail server that delivers. *)
Lemma alert_sent_iff_delivered_witness :
  subscript (email_config Run.monitor) "sender" = Ok (PyStr "your-email@gmail.com")
  /\ subscript (email_config Run.monitor) "recipient" = Ok (PyStr "admin@example.com")
  /\ subscript (email_config Run.monitor) "smtp_server" = Ok (PyStr "smtp.gmail.com")
  /\ subscript (email_config Run.monitor) "smtp_port" = Ok (PyInt 587)
  /\ subscript (email_config Run.monitor) "password" = Ok (PyStr "your-app-password")
  /\ Log INFO ("Alert sent: " +:+ subject Cpu) None
       ∈ events_of (send_alert Case.good_tick (subject Cpu) (message Cpu Run.usage)
                      Run.monitor).
Proof.
  destruct (alert_sent_iff_delivered Case.good_tick Run.monitor (subject Cpu)
              (message Cpu Run.usage) (PyStr "your-email@gmail.com")
              (PyStr "admin@example.com") (PyStr "smtp.gmail.com") (PyInt 587)
              (PyStr "your-app-password")) as ([_ Hsent] & _);
    [vm_compute; reflexivity..|].
  split_and!; [vm_compute; reflexivity..|].
  apply Hsent. split_and!; reflexivity.
Defined.

(** The mail server of [Run.tick] refuses the login: the session is closed
    all the same. *)
Lemma connection_always_closed_witness :
  subscript (email_config Run.monitor) "sender" = Ok (PyStr "your-email@gmail.com")
  /\ subscript (email_config Run.monitor) "recipient" = Ok (PyStr "admin@example.com")
  /\ subscript (email_config Run.monitor) "smtp_server" = Ok (PyStr "smtp.gmail.com")
  /\ subscript (email_config Run.monitor) "smtp_port" = Ok (PyInt 587)
  /\ exists session after,
       events_of (send_alert Run.tick (subject Cpu) (message Cpu Run.usage) Run.monitor)
       = SendAlert (subject Cpu) (message Cpu Run.usage)
           :: SmtpConnect (PyStr "smtp.gmail.com") (PyInt 587) :: SmtpStartTLS
           :: session ++ SmtpQuit :: after
       /\ (SmtpQuit ∉ session) /\ (SmtpQuit ∉ after).
Proof.
  destruct (connection_always_closed Run.tick Run.monitor (subject Cpu)
              (message Cpu Run.usage) (PyStr "your-email@gmail.com")
              (PyStr "admin@example.com") (PyStr "smtp.gmail.com") (PyInt 587))
    as [Hclosed _]; [vm_compute; reflexivity..|].
  split_and!; [vm_compute; reflexivity..|].
  apply Hclosed. reflexivity.
Defined.

(** Without a recipient no server is contacted. *)
Lemma missing_setting_contacts_no_server_witness :
  forallb (has_key (email_config Case.no_recipient))
    ["sender"; "recipient"; "smtp_server"; "smtp_port"] = false
  /\ exists e,
       (e = TypeError \/ exists k, e = KeyError k)
       /\ send_alert Run.tick (subject Cpu) (message Cpu Run.usage) Case.no_recipient
          = (Ok tt, Case.no_recipient,
             [SendAlert (subject Cpu) (message Cpu Run.usage);
              Log ERROR "Failed to send alert: " (Some e)]).
Proof.
  split; [vm_compute; reflexivity|].
  apply (missing_setting_contacts_no_server Run.tick Case.no_recipient).
  vm_compute; reflexivity.
Defined.

(** The monitor built from [Case.document]. *)
Lemma init_reads_settings_witness :
  result_of (__init__ Case.with_document "config.yaml" false tt) = Ok Case.from_document
  /\ exists d : gmap string value,
       config Case.from_document = PyDict d
       /\ d !! "thresholds" = Some (thresholds Case.from_document)
       /\ interval Case.from_document = default (PyInt 300) (d !! "interval")
       /\ alert_cooldown Case.from_document
          = default (PyInt 3600) (d !! "alert_cooldown").
Proof.
  assert (result_of (__init__ Case.with_document "config.yaml" false tt)
          = Ok Case.from_document) as Hinit by (vm_compute; reflexivity).
  split; [exact Hinit|].
  destruct (init_reads_settings Case.with_document "config.yaml" false
              Case.from_document Hinit) as (d & Hc & _ & _ & Ht & _ & Hi & Ha & _).
  exists d. split_and!; assumption.
Defined.

(** A start without a configuration file, logging to a file. *)
Lemma init_recovers_from_load_failure_witness :
  load_yaml Run.no_file "config.yaml" = Raise (Other "FileNotFoundError")
  /\ (true = true -> open_log_file Run.no_file = Ok tt)
  /\ exists self,
       __init__ Run.no_file "config.yaml" true tt
       = (Ok self, tt,
          [Log ERROR "Failed to load config: " (Some (Other "FileNotFoundError"))])
       /\ well_configured self = true
       /\ window self = Some 3600%Q.
Proof.
  assert (true = true -> open_log_file Run.no_file = Ok tt) as Hlog
    by (intros _; reflexivity).
  split; [reflexivity|]. split; [exact Hlog|].
  destruct (init_recovers_from_load_failure Run.no_file "config.yaml" true
              (Other "FileNotFoundError") eq_refl Hlog)
    as (self & E & Hw & _ & Hc & _).
  exists self. split_and!; assumption.
Defined.

(** With [alert_cooldown: null] two ticks with the cpu over its threshold,
    two hours apart, alert nobody. *)
Lemma bad_window_never_alerts_witness :
  comparable (alert_cooldown Case.null_cooldown) = false
  /\ ~ alert_attempted Cpu
         (events_of (monitor_loop Run.lib [Run.tick; Run.later 7200] Case.null_cooldown)).
Proof.
  split; [reflexivity|].
  apply (bad_window_never_alerts Run.lib [Run.tick; Run.later 7200]
           Case.null_cooldown Cpu).
  reflexivity.
Defined.

(** Half an hour after the alert of [Run.tick] the cpu is still over its
    threshold: no second alert. *)
Lemma no_second_alert_within_window_witness :
  window Run.monitor = Some 3600%Q
  /\ (0 <= 3600)%Q /\ (3600 < 2 ^ 53)%Q
  /\ alert_attempted Cpu (events_of (check_resources Run.lib Run.tick Run.monitor))
  /\ (forall w', w' ∈ [Run.later 1800] ->
        clock_check w' <= clock_check Run.tick + Qfloor 3600 * 1000000)
  /\ exists t2,
       events_of (monitor_loop Run.lib [Run.tick; Run.later 1800] Run.monitor)
       = events_of (check_resources Run.lib Run.tick Run.monitor) ++ t2
       /\ ~ alert_attempted Cpu t2.
Proof.
  assert ((0 <= 3600)%Q) as Hcd by (vm_compute; discriminate).
  assert ((3600 < 2 ^ 53)%Q) as Hbig by (vm_compute; reflexivity).
  assert (alert_attempted Cpu
            (events_of (check_resources Run.lib Run.tick Run.monitor))) as Hfirst.
  { exists (message Cpu Run.usage). vm_compute.
    repeat first [apply list_elem_of_here | apply list_elem_of_further]. }
  assert (forall w', w' ∈ [Run.later 1800] ->
            clock_check w' <= clock_check Run.tick + Qfloor 3600 * 1000000) as Hnear.
  { intros w' Hin. apply list_elem_of_singleton in Hin. subst w'.
    vm_compute. discriminate. }
  split_and!; [reflexivity|exact Hcd|exact Hbig|exact Hfirst|exact Hnear|].
  exact (no_second_alert_within_window Run.lib Run.tick [Run.later 1800] Run.monitor
           Cpu 3600 eq_refl Hcd Hbig Hfirst Hnear).
Defined.

(** The alert of [Run.tick], then a clock set back. *)
Lemma cooldown_times_never_go_back_witness :
  last_alert_time Run.monitor !! key Cpu = Some Datetime.min
  /\ window Run.monitor = Some 3600%Q
  /\ (0 <= 3600)%Q
  /\ exists last',
       last_alert_time
         (state_of (monitor_loop Run.lib [Run.tick; Case.early_tick] Run.monitor))
         !! key Cpu = Some last'
       /\ Datetime.min <= last'.
Proof.
  assert ((0 <= 3600)%Q) as Hcd by (vm_compute; discriminate).
  split_and!; [reflexivity|reflexivity|exact Hcd|].
  destruct (cooldown_times_never_go_back Run.lib [Run.tick; Case.early_tick]
              Run.monitor Cpu Datetime.min 3600 eq_refl eq_refl Hcd)
    as (last' & Hl & Hle & _).
  exists last'. by split.
Defined.


